(** * CinetPay scrapers: extraction, pagination and orchestration

    A shallow embedding of the scraping core of the repository
    ([cinetpay_scraper.py], [improved_cinetpay_scraper.py],
    [enhanced_transaction_id_scraper.py], [scrape_transaction_ids.py])
    and the properties its specification states about it.

    Conventions.
    - A Python [str] is a Rocq [string]; a character is read as the code
      point 0..255 it carries.
    - A rendered page is a record holding what each DOM query of the source
      returns on it (the selector is named at each field).
    - A [while True] loop is a fixpoint on a fuel argument; running out of
      fuel is [None] and is never read as a normal return. *)

From Stdlib Require Import String Ascii List ZArith Bool Lia.
Import ListNotations.
Local Open Scope string_scope.
Local Open Scope list_scope.
Local Open Scope Z_scope.

(** ** Python built-ins used by the scrapers *)

Module Py.

Definition code (c : ascii) : Z := Z.of_N (N_of_ascii c).

(** [str.isspace] on one character: the whitespace of [str.strip] and
    [str.split] without argument. *)
Definition is_space (c : ascii) : bool :=
  let n := code c in
  ((9 <=? n) && (n <=? 13)) || ((28 <=? n) && (n <=? 32))
  || (n =? 133) || (n =? 160).

Definition is_digit (c : ascii) : bool :=
  let n := code c in (48 <=? n) && (n <=? 57).

Definition digit_val (c : ascii) : Z := code c - 48.

(** Truth value of a string: non-empty. *)
Definition truthy (s : string) : bool :=
  match s with EmptyString => false | String _ _ => true end.

Fixpoint lstrip (s : string) : string :=
  match s with
  | EmptyString => EmptyString
  | String c r => if is_space c then lstrip r else s
  end.

Fixpoint rstrip (s : string) : string :=
  match s with
  | EmptyString => EmptyString
  | String c r =>
      match rstrip r with
      | EmptyString => if is_space c then EmptyString else String c EmptyString
      | r' => String c r'
      end
  end.

(** [s.strip()] *)
Definition strip (s : string) : string := rstrip (lstrip s).

(** [s.split()]: the maximal runs of non-whitespace characters. *)
Fixpoint split (s : string) : list string :=
  match s with
  | EmptyString => []
  | String c r =>
      if is_space c then split r
      else match r with
           | EmptyString => [String c EmptyString]
           | String d _ =>
               if is_space d then String c EmptyString :: split r
               else match split r with
                    | w :: ws => String c w :: ws
                    | [] => [String c EmptyString]
                    end
           end
  end.

(** [s.startswith(p)] *)
Fixpoint startswith (p s : string) : bool :=
  match p, s with
  | EmptyString, _ => true
  | String a p', String b s' => Ascii.eqb a b && startswith p' s'
  | String _ _, EmptyString => false
  end.

(** [sub in s] *)
Fixpoint contains (sub s : string) : bool :=
  startswith sub s ||
  match s with
  | EmptyString => false
  | String _ r => contains sub r
  end.

(** Digits of an integer literal after the first one: single underscores
    may separate digits, none may end the literal. *)
Fixpoint int_digits (s : string) (acc : Z) (after_underscore : bool)
  : option Z :=
  match s with
  | EmptyString => if after_underscore then None else Some acc
  | String c r =>
      if is_digit c then int_digits r (10 * acc + digit_val c) false
      else if Ascii.eqb c "_"%char
           then if after_underscore then None else int_digits r acc true
           else None
  end.

Definition int_unsigned (s : string) : option Z :=
  match s with
  | String c r => if is_digit c then int_digits r (digit_val c) false else None
  | EmptyString => None
  end.

(** The whitespace that [int] skips around a literal: the ASCII
    whitespace and, of the other characters, those that [str.isspace]
    accepts; the separators U+001C to U+001F are not among them. *)
Definition is_int_space (c : ascii) : bool :=
  let n := code c in
  ((9 <=? n) && (n <=? 13)) || (n =? 32) || (n =? 133) || (n =? 160).

Fixpoint int_lstrip (s : string) : string :=
  match s with
  | EmptyString => EmptyString
  | String c r => if is_int_space c then int_lstrip r else s
  end.

Fixpoint int_rstrip (s : string) : string :=
  match s with
  | EmptyString => EmptyString
  | String c r =>
      match int_rstrip r with
      | EmptyString =>
          if is_int_space c then EmptyString else String c EmptyString
      | r' => String c r'
      end
  end.

(** The number of digit characters of a literal. *)
Fixpoint digit_count (s : string) : Z :=
  match s with
  | EmptyString => 0
  | String c r => (if is_digit c then 1 else 0) + digit_count r
  end.

(** [sys.get_int_max_str_digits()] as the interpreter starts with it. *)
Definition MAX_STR_DIGITS : Z := 4300.

(** [int(s)] in base ten; [None] is [ValueError], which a literal of more
    than [MAX_STR_DIGITS] digits raises too. *)
Definition int (s : string) : option Z :=
  let t := int_rstrip (int_lstrip s) in
  if MAX_STR_DIGITS <? digit_count t then None
  else
    match t with
    | String "-"%char r => option_map Z.opp (int_unsigned r)
    | String "+"%char r => int_unsigned r
    | _ => int_unsigned t
    end.


(** *** [datetime.strptime]

    [_strptime] turns the format into a regular expression, takes the
    first match that [re.match] finds (alternatives in the order they are
    written) and raises [ValueError] when the match does not end the
    string or the fields do not name a calendar day.  A matcher returns
    its candidate matches in that order, each with the remaining text. *)

Definition matches (A : Type) : Type := list (A * string).

Definition in_range (lo hi : Z) (c : ascii) : bool :=
  (lo <=? code c) && (code c <=? hi).

Definition two (p q : ascii -> bool) (s : string) : matches Z :=
  match s with
  | String a (String b r) =>
      if p a && q b then [(10 * digit_val a + digit_val b, r)] else []
  | _ => []
  end.

Definition one (p : ascii -> bool) (s : string) : matches Z :=
  match s with
  | String a r => if p a then [(digit_val a, r)] else []
  | EmptyString => []
  end.

Definition padded (p : ascii -> bool) (s : string) : matches Z :=
  match s with
  | String " "%char (String b r) => if p b then [(digit_val b, r)] else []
  | _ => []
  end.

(** [%d]: [3[0-1]|[1-2]\d|0[1-9]|[1-9]| [1-9]] *)
Definition re_d (s : string) : matches Z :=
  two (in_range 51 51) (in_range 48 49) s
  ++ two (in_range 49 50) is_digit s
  ++ two (in_range 48 48) (in_range 49 57) s
  ++ one (in_range 49 57) s
  ++ padded (in_range 49 57) s.

(** [%m]: [1[0-2]|0[1-9]|[1-9]] *)
Definition re_m (s : string) : matches Z :=
  two (in_range 49 49) (in_range 48 50) s
  ++ two (in_range 48 48) (in_range 49 57) s
  ++ one (in_range 49 57) s.

(** [%Y]: [\d\d\d\d] *)
Definition re_Y (s : string) : matches Z :=
  match s with
  | String a (String b (String c (String d r))) =>
      if is_digit a && is_digit b && is_digit c && is_digit d
      then [(1000 * digit_val a + 100 * digit_val b
             + 10 * digit_val c + digit_val d, r)]
      else []
  | _ => []
  end.

Definition dash (s : string) : list string :=
  match s with
  | String "-"%char r => [r]
  | _ => []
  end.

Record datetime : Type := mkdate { year : Z; month : Z; day : Z }.

Definition is_leap (y : Z) : bool :=
  (y mod 4 =? 0) && (negb (y mod 100 =? 0) || (y mod 400 =? 0)).

Definition days_in_month (y m : Z) : Z :=
  if m =? 2 then (if is_leap y then 29 else 28)
  else if (m =? 4) || (m =? 6) || (m =? 9) || (m =? 11) then 30
  else 31.

(** The constructor of [datetime] refuses year 0 and days past the end
    of the month. *)
Definition make_date (y m d : Z) : option datetime :=
  if (1 <=? y) && (1 <=? m) && (m <=? 12) && (1 <=? d)
     && (d <=? days_in_month y m)
  then Some (mkdate y m d) else None.

Definition finish (found : matches (Z * Z * Z)) : option datetime :=
  match found with
  | ((y, m, d), EmptyString) :: _ => make_date y m d
  | _ => None
  end.

(** [datetime.strptime(s, "%d-%m-%Y")] *)
Definition strptime_dmY (s : string) : option datetime :=
  finish
    (flat_map (fun '(d, r1) =>
       flat_map (fun r2 =>
         flat_map (fun '(m, r3) =>
           flat_map (fun r4 =>
             map (fun '(y, r5) => ((y, m, d), r5)) (re_Y r4))
           (dash r3))
         (re_m r2))
       (dash r1))
     (re_d s)).

(** [datetime.strptime(s, "%Y-%m-%d")] *)
Definition strptime_Ymd (s : string) : option datetime :=
  finish
    (flat_map (fun '(y, r1) =>
       flat_map (fun r2 =>
         flat_map (fun '(m, r3) =>
           flat_map (fun r4 =>
             map (fun '(d, r5) => ((y, m, d), r5)) (re_d r4))
           (dash r3))
         (re_m r2))
       (dash r1))
     (re_Y s)).

(** [a <= b] on [datetime] values: field by field, most significant
    first. *)
Definition date_leb (a b : datetime) : bool :=
  (year a <? year b)
  || ((year a =? year b)
      && ((month a <? month b)
          || ((month a =? month b) && (day a <=? day b)))).

End Py.

(** ** What the scrapers see of a page *)

(** How a click on an element ends: it returns, it raises
    [ElementClickInterceptedException], or it raises something else. *)
Inductive click_outcome : Type :=
| Clicked
| Intercepted
| Failed.

(** The three ways the scrapers click: [element.click()],
    [execute_script("arguments[0].click();", element)] and
    [actions.move_to_element(element).click().perform()]. *)
Inductive strategy : Type :=
| Native
| Scripted
| Synthetic.

(** A located next-page control: the [class] attribute of its parent
    (the element at XPath [..]; [None] when the attribute is absent) and how
    each click on it would end. *)
Record button : Type := mkbutton {
  parent_class : option string;
  click : click_outcome;
  script_click : click_outcome;
  pointer_click : click_outcome
}.

(** The dictionary returned by [get_pagination_info]. *)
Record pagination_info : Type := mkinfo {
  current_page : Z;
  total_pages : Z;
  has_next : bool
}.

(** [{'current_page': 1, 'total_pages': 1, 'has_next': False}] *)
Definition single_page : pagination_info := mkinfo 1 1 false.

(** The pagination bar as [CinetPayScraper] and [ImprovedCinetPayScraper]
    query it. *)
Record pager : Type := mkpager {
  (** text of [.pagination .page-item.active .page-link]; [None] when
      [find_element] raises [NoSuchElementException] *)
  active_text : option string;
  (** texts of [.pagination .page-item .page-link] *)
  link_texts : list string;
  (** [class] attribute of each [.pagination .page-item:last-child] *)
  last_item_classes : list (option string)
}.

(** [for link in page_links: try: total_pages = max(total_pages,
    int(link.text)) except ValueError: continue] *)
Fixpoint max_page (total : Z) (links : list string) : Z :=
  match links with
  | [] => total
  | t :: rest =>
      match Py.int t with
      | Some n => max_page (Z.max total n) rest
      | None => max_page total rest
      end
  end.

(** [len(next_buttons) > 0 and "disabled" not in
    next_buttons[0].get_attribute("class")]; [None] is the [TypeError] of
    [in] on a missing attribute. *)
Definition next_available (classes : list (option string)) : option bool :=
  match classes with
  | [] => Some false
  | Some c :: _ => Some (negb (Py.contains "disabled" c))
  | None :: _ => None
  end.

(** The first locator of a fallback list that resolves. *)
Fixpoint first_resolved {A : Type} (found : list (option A)) : option A :=
  match found with
  | [] => None
  | Some a :: _ => Some a
  | None :: rest => first_resolved rest
  end.

(** [max_pages and page_count > max_pages] *)
Definition over_limit (max_pages : option Z) (page_count : Z) : bool :=
  match max_pages with
  | None => false
  | Some m => negb (m =? 0) && (m <? page_count)
  end.

(** ** [cinetpay_scraper.py]: [CinetPayScraper] *)

Module Basic.

#[local] Set Warnings "-register-all".
(** A value decoded by [json.loads]. *)
Inductive json : Type :=
| JNull
| JBool (b : bool)
| JNum (literal : string)
| JStr (s : string)
| JArr (items : list json)
| JObj (members : list (string * json)).
#[local] Set Warnings "register-all".

(** [payment_data.get(key, '')] on a decoded object, whose later members
    override earlier ones of the same name. *)
Fixpoint get (key : string) (members : list (string * json)) : json :=
  match members with
  | [] => JStr ""
  | (k, v) :: rest =>
      if String.eqb k key && negb (existsb (fun kv => String.eqb (fst kv) key) rest)
      then v else get key rest
  end.

(** The element [.payment-action] of a row. *)
Record action_link : Type := mkaction {
  data_json : option string;
  data_business_name : option string
}.

(** A [tr] of [.payments-collected-table tbody]: the texts of its [td]
    cells and its action link, if it has one. *)
Record row : Type := mkrow {
  cells : list string;
  payment_action : option action_link
}.

(** The keys added by [transaction.update]. *)
Record enrichment : Type := mkenrichment {
  payment_method : json;
  currency : json;
  error_message : json;
  business_id : json;
  business_name : string;
  operator_id : json;
  phone_prefix : json;
  designation : json;
  payment_config : json;
  notify_url : json;
  custom_field : json
}.

(** The dictionary built for a row. *)
Record transaction : Type := mktransaction {
  date : string;
  transaction_id : string;
  phone_number : string;
  amount : string;
  status : string;
  extra : option enrichment
}.

Record page : Type := mkpage {
  (** [.payments-collected-table tbody tr] *)
  rows : list row;
  pagination : pager;
  (** what [find_element] gives for each entry of [next_selectors], in
      order; [None] is [NoSuchElementException] *)
  next_controls : list (option button)
}.

Definition cell (r : row) (i : nat) : string :=
  Py.strip (nth i (cells r) "").

Definition or_empty (s : option string) : string :=
  match s with Some t => t | None => "" end.

Section Extraction.

(** [json.loads]; [None] is [json.JSONDecodeError]. *)
Variable json_loads : string -> option json.

(** What the inner [try] of a row leaves in [transaction]: [Some None]
    when nothing is added, [Some (Some e)] after [update], and [None]
    when [payment_data.get] raises [AttributeError] on a decoded value
    that is not an object, which only the handler of the row catches. *)
Definition enrich (r : row) : option (option enrichment) :=
  match payment_action r with
  | None => Some None
  | Some a =>
      match data_json a with
      | None => Some None
      | Some text =>
          if Py.truthy text then
            match json_loads text with
            | None => Some None
            | Some (JObj d) =>
                Some (Some
                  {| payment_method := get "payment_method" d;
                     currency := get "cpm_currency" d;
                     error_message := get "cpm_error_message" d;
                     business_id := get "cpm_site_id" d;
                     business_name := or_empty (data_business_name a);
                     operator_id := get "cpm_payid" d;
                     phone_prefix := get "cpm_phone_prefixe" d;
                     designation := get "cpm_designation" d;
                     payment_config := get "cpm_payment_config" d;
                     notify_url := get "notify_url" d;
                     custom_field := get "custom_s3" d |})
            | Some _ => None
            end
          else Some None
      end
  end.

(** The body of [for row in rows]: the transaction appended for the
    row, if any. *)
Definition extract_row (r : row) : option transaction :=
  if (5 <=? length (cells r))%nat then
    let transaction_id := cell r 1 in
    if Py.truthy transaction_id then
      match enrich r with
      | Some e =>
          Some {| date := cell r 0;
                  transaction_id := transaction_id;
                  phone_number := cell r 2;
                  amount := cell r 3;
                  status := cell r 4;
                  extra := e |}
      | None => None
      end
    else None
  else None.

Fixpoint extract_rows (rs : list row) : list transaction :=
  match rs with
  | [] => []
  | r :: rest =>
      match extract_row r with
      | Some t => t :: extract_rows rest
      | None => extract_rows rest
      end
  end.

(** [CinetPayScraper.extract_table_data] *)
Definition extract_table_data (p : page) : list transaction :=
  extract_rows (rows p).

(** [CinetPayScraper.get_pagination_info] *)
Definition get_pagination_info (p : page) : pagination_info :=
  match active_text (pagination p) with
  | None => single_page
  | Some text =>
      match Py.int text with
      | None => single_page
      | Some current =>
          match next_available (last_item_classes (pagination p)) with
          | None => single_page
          | Some next =>
              mkinfo current (max_page 1 (link_texts (pagination p))) next
          end
      end
  end.

(** [CinetPayScraper.go_to_next_page]: the value returned and the
    clicks made on the way. *)
Definition go_to_next_page (p : page) : bool * list strategy :=
  match first_resolved (next_controls p) with
  | None => (false, [])
  | Some next_button =>
      match parent_class next_button with
      | None => (false, [])
      | Some c =>
          if Py.contains "disabled" c then (false, [])
          else
            match click next_button with
            | Clicked => (true, [Native])
            | _ =>
                match script_click next_button with
                | Clicked => (true, [Native; Scripted])
                | _ => (false, [Native; Scripted])
                end
            end
      end
  end.

(** The browser: its states, the page each state shows and the state
    reached when a click on the next-page control goes through. *)
Variable browser : Type.
Variable view : browser -> page.
Variable next : browser -> browser.

(** [CinetPayScraper.scrape_all_pages], entered with [page_count] and
    [all_transactions] as they stand at the top of the loop. *)
Fixpoint scrape_loop (fuel : nat) (max_pages : option Z)
    (page_count : Z) (all_transactions : list transaction)
    (b : browser) : option (list transaction) :=
  match fuel with
  | O => None
  | S fuel' =>
      let page_count := page_count + 1 in
      if over_limit max_pages page_count then Some all_transactions
      else
        let pagination_info := get_pagination_info (view b) in
        let all_transactions :=
          all_transactions ++ extract_table_data (view b) in
        if negb (has_next pagination_info) then Some all_transactions
        else if fst (go_to_next_page (view b))
             then scrape_loop fuel' max_pages page_count
                    all_transactions (next b)
             else Some all_transactions
  end.

Definition scrape_all_pages (fuel : nat) (max_pages : option Z)
    (b : browser) : option (list transaction) :=
  scrape_loop fuel max_pages 0 [] b.

End Extraction.

(** [df[df['transaction_id'].notna() & (df['transaction_id'] != '')]]:
    every dictionary built by [extract_table_data] has the key
    [transaction_id] with a string for value, so no cell is missing. *)
Definition valid_transactions (transactions : list transaction)
  : list transaction :=
  filter (fun t => negb (String.eqb (transaction_id t) "")) transactions.

(** [CinetPayScraper.save_to_csv] on the transactions of a scrape: the rows
    handed to [to_csv], [None] when the method returns [None] before
    writing.  The directory and the file are taken to be writable. *)
Definition save_to_csv (transactions : list transaction)
  : option (list transaction) :=
  match transactions with
  | [] => None
  | _ :: _ =>
      let valid := valid_transactions transactions in
      match valid with
      | [] => None
      | _ :: _ =>
          if (length valid <? length transactions)%nat
          then Some valid else Some transactions
      end
  end.

End Basic.

(** ** [improved_cinetpay_scraper.py]: [ImprovedCinetPayScraper] *)

Module Improved.

Record page : Type := mkpage {
  (** texts of [.payments-collected-table tbody tr td:nth-child(2)] *)
  id_cells : list string;
  pagination : pager;
  (** [.pagination .page-item:last-child button] once clickable; [None]
      when the wait times out *)
  next_button : option button
}.

(** [ImprovedCinetPayScraper.extract_table_data]; each dictionary of the
    result has the one key [transaction_id] and is given by its value. *)
Fixpoint extract_ids (texts : list string) : list string :=
  match texts with
  | [] => []
  | t :: rest =>
      let transaction_id := Py.strip t in
      if Py.truthy transaction_id then transaction_id :: extract_ids rest
      else extract_ids rest
  end.

(** The identifiers of the page, cell after cell. *)
Definition extract_table_data (p : page) : list string :=
  extract_ids (id_cells p).

(** [ImprovedCinetPayScraper.get_pagination_info] *)
Definition get_pagination_info (p : page) : pagination_info :=
  match active_text (pagination p) with
  | None => single_page
  | Some text =>
      match Py.int text with
      | None => single_page
      | Some current =>
          match next_available (last_item_classes (pagination p)) with
          | None => single_page
          | Some next =>
              mkinfo current (max_page 1 (link_texts (pagination p))) next
          end
      end
  end.

(** The nested [try] blocks of [go_to_next_page] on a control that is
    not disabled. *)
Definition click_next (b : button) : bool * list strategy :=
  match click b with
  | Clicked => (true, [Native])
  | Failed => (false, [Native])
  | Intercepted =>
      match script_click b with
      | Clicked => (true, [Native; Scripted])
      | _ =>
          match pointer_click b with
          | Clicked => (true, [Native; Scripted; Synthetic])
          | _ => (false, [Native; Scripted; Synthetic])
          end
      end
  end.

(** [ImprovedCinetPayScraper.go_to_next_page]: the value returned and
    the clicks made on the way. *)
Definition go_to_next_page (p : page) : bool * list strategy :=
  match next_button p with
  | None => (false, [])
  | Some b =>
      match parent_class b with
      | None => (false, [])
      | Some c =>
          if Py.contains "disabled" c then (false, []) else click_next b
      end
  end.

(** *** Orchestration

    [scrape_single_country] and [scrape_all_countries] call the methods
    of the scraper; a call returns a value or raises, and leaves the
    browser in some state either way. *)

Inductive outcome (A W : Type) : Type :=
| Returned (a : A) (w : W)
| Raised (reason : string) (w : W).
Arguments Returned {A W} a w.
Arguments Raised {A W} reason w.

(** The arguments of [set_filters]. *)
Record filters : Type := mkfilters {
  country_code : option string;
  status : option string;
  date_range : option (string * string);
  business : option string
}.

Record methods (W : Type) : Type := mkmethods {
  navigate_to_transactions : W -> outcome unit W;
  set_filters : filters -> W -> outcome unit W;
  pagination_info : W -> outcome pagination_info W;
  table_data : W -> outcome (list string) W;
  next_page : W -> outcome bool W
}.
Arguments navigate_to_transactions {W} m w.
Arguments set_filters {W} m f w.
Arguments pagination_info {W} m w.
Arguments table_data {W} m w.
Arguments next_page {W} m w.

(** How the [while True] of [scrape_single_country] is left: by [break],
    or by an exception; [all_transactions] is what it holds then. *)
Inductive loop_exit (W : Type) : Type :=
| Break (all_transactions : list string) (w : W)
| Thrown (reason : string) (all_transactions : list string) (w : W).
Arguments Break {W} all_transactions w.
Arguments Thrown {W} reason all_transactions w.

(** The result of a scrape: the transactions returned, the browser state
    and the error records that the two orchestration methods write with
    [logger.error]. *)
Definition run (W : Type) : Type := (list string * W * list string)%type.

Section Orchestration.

Context {W : Type}.
Variable m : methods W.

(** [country_name.replace('_', ' ').title()] *)
Variable display_name : string -> string.

Fixpoint scrape_loop (fuel : nat) (max_pages : option Z)
    (page_count : Z) (all_transactions : list string) (w : W)
    : option (loop_exit W) :=
  match fuel with
  | O => None
  | S fuel' =>
      let page_count := page_count + 1 in
      if over_limit max_pages page_count
      then Some (Break all_transactions w)
      else
        match pagination_info m w with
        | Raised e w1 => Some (Thrown e all_transactions w1)
        | Returned info w1 =>
            match table_data m w1 with
            | Raised e w2 => Some (Thrown e all_transactions w2)
            | Returned page_transactions w2 =>
                let all_transactions :=
                  all_transactions ++ page_transactions in
                if negb (has_next info)
                then Some (Break all_transactions w2)
                else
                  match next_page m w2 with
                  | Raised e w3 => Some (Thrown e all_transactions w3)
                  | Returned false w3 => Some (Break all_transactions w3)
                  | Returned true w3 =>
                      scrape_loop fuel' max_pages page_count
                        all_transactions w3
                  end
            end
        end
  end.

(** [f"Error scraping {country_name}: {str(e)}"] *)
Definition error_scraping (country_name reason : string) : string :=
  "Error scraping " ++ country_name ++ ": " ++ reason.

(** [f"Failed to scrape {country_name}: {str(e)}"] *)
Definition failed_to_scrape (country_name reason : string) : string :=
  "Failed to scrape " ++ country_name ++ ": " ++ reason.

(** [ImprovedCinetPayScraper.scrape_single_country] *)
Definition scrape_single_country (fuel : nat) (f : filters)
    (country_name : string) (max_pages : option Z) (w : W)
    : option (run W) :=
  match set_filters m f w with
  | Raised e w1 => Some ([], w1, [error_scraping country_name e])
  | Returned _ w1 =>
      match scrape_loop fuel max_pages 0 [] w1 with
      | None => None
      | Some (Break all_transactions w2) => Some (all_transactions, w2, [])
      | Some (Thrown e all_transactions w2) =>
          Some (all_transactions, w2, [error_scraping country_name e])
      end
  end.

(** [ImprovedCinetPayScraper.scrape_all_countries] over the items of
    [Config.COUNTRY_CODES], entered with [all_transactions] and the
    error records as they stand. *)
Fixpoint scrape_countries (fuel : nat) (countries : list (string * string))
    (f : filters) (max_pages_per_country : option Z)
    (all_transactions : list string) (errors : list string) (w : W)
    : option (run W) :=
  match countries with
  | [] => Some (all_transactions, w, errors)
  | (country_name, code) :: rest =>
      match navigate_to_transactions m w with
      | Raised e w1 =>
          scrape_countries fuel rest f max_pages_per_country
            all_transactions
            (errors ++ [failed_to_scrape country_name e]) w1
      | Returned _ w1 =>
          match scrape_single_country fuel
                  {| country_code := Some code; status := status f;
                     date_range := date_range f; business := business f |}
                  (display_name country_name) max_pages_per_country w1
          with
          | None => None
          | Some (country_transactions, w2, logged) =>
              scrape_countries fuel rest f max_pages_per_country
                (all_transactions ++ country_transactions)
                (errors ++ logged) w2
          end
      end
  end.

Definition scrape_all_countries (fuel : nat)
    (countries : list (string * string)) (f : filters)
    (max_pages_per_country : option Z) (w : W) : option (run W) :=
  scrape_countries fuel countries f max_pages_per_country [] [] w.

End Orchestration.

(** [Config.COUNTRY_CODES], in the order its items are iterated. *)
Definition COUNTRY_CODES : list (string * string) :=
  [("Cameroun", "237"); ("Cote d'ivoire", "225"); ("Senegal", "221");
   ("Burkina Faso", "226"); ("Togo", "228")].

(** The methods as the class implements them, over a browser whose
    states show pages: the three page readers catch every exception
    themselves.  What the methods write to the log on their own account
    is no part of their outcome: the records of a [run] are those of the
    handlers of [scrape_single_country] and [scrape_all_countries]
    only. *)
Section Implementation.

Variable browser : Type.
Variable view : browser -> page.
Variable next : browser -> browser.
Variable navigate : browser -> outcome unit browser.
Variable apply_filters : filters -> browser -> outcome unit browser.

Definition implementation : methods browser :=
  {| navigate_to_transactions := navigate;
     set_filters := apply_filters;
     pagination_info := fun b => Returned (get_pagination_info (view b)) b;
     table_data := fun b => Returned (extract_table_data (view b)) b;
     next_page := fun b =>
       if fst (go_to_next_page (view b)) then Returned true (next b)
       else Returned false b |}.

End Implementation.

End Improved.

(** ** [enhanced_transaction_id_scraper.py]:
       [EnhancedTransactionIDScraper] *)

Module Enhanced.

Record page : Type := mkpage {
  (** whether a [table] shows up before the wait times out *)
  has_table : bool;
  (** [table tbody tr], each row by the texts of its [td] cells *)
  rows : list (list string);
  (** number of elements [.pagination, nav[aria-label*='Pagination']] *)
  pagination_bars : nat;
  (** texts of [.page-item.active .page-link, .pagination .active] *)
  active_texts : list string;
  (** texts of [.page-link, .pagination a] *)
  link_texts : list string;
  (** [class] attribute of each
      [.page-item:last-child .page-link, a[rel='next'], .pagination .next] *)
  next_classes : list (option string);
  (** what [find_element] gives for each entry of [next_selectors], in
      order; [None] is [NoSuchElementException] *)
  next_controls : list (option button)
}.

(** [EnhancedTransactionIDScraper.is_date_in_range] *)
Definition is_date_in_range (date_text start_date end_date : string) : bool :=
  match Py.split date_text with
  | [] => false
  | first :: _ =>
      match Py.strptime_dmY first with
      | None => false
      | Some date_obj =>
          match Py.strptime_Ymd start_date with
          | None => false
          | Some start_obj =>
              match Py.strptime_Ymd end_date with
              | None => false
              | Some end_obj =>
                  Py.date_leb start_obj date_obj
                  && Py.date_leb date_obj end_obj
              end
          end
      end
  end.

(** The body of [for row in rows]: the identifier appended for the row,
    if any. *)
Definition extract_row (date_filter : option (string * string))
    (cells : list string) : option string :=
  if (2 <? length cells)%nat then
    let date_text := Py.strip (nth 0 cells "") in
    let transaction_id := Py.strip (nth 2 cells "") in
    if Py.truthy transaction_id
       && negb (String.eqb transaction_id "")
       && negb (Py.startswith "Loading" transaction_id)
    then
      match date_filter with
      | Some (start_date, end_date) =>
          if is_date_in_range date_text start_date end_date
          then Some transaction_id else None
      | None => Some transaction_id
      end
    else None
  else None.

Fixpoint extract_rows (date_filter : option (string * string))
    (rs : list (list string)) : list string :=
  match rs with
  | [] => []
  | r :: rest =>
      match extract_row date_filter r with
      | Some i => i :: extract_rows date_filter rest
      | None => extract_rows date_filter rest
      end
  end.

(** [EnhancedTransactionIDScraper.extract_transaction_ids] *)
Definition extract_transaction_ids (date_filter : option (string * string))
    (p : page) : list string :=
  if has_table p then extract_rows date_filter (rows p) else [].

(** [current_page = 1], then [int(current_page_elements[0].text.strip())]
    unless that raises [ValueError]. *)
Definition read_current (active : list string) : Z :=
  match active with
  | [] => 1
  | t :: _ =>
      match Py.int (Py.strip t) with
      | Some n => n
      | None => 1
      end
  end.

(** [for link in page_links], with [int(link.text.strip())]. *)
Fixpoint max_link (total : Z) (links : list string) : Z :=
  match links with
  | [] => total
  | t :: rest =>
      match Py.int (Py.strip t) with
      | Some n => max_link (Z.max total n) rest
      | None => max_link total rest
      end
  end.

(** [EnhancedTransactionIDScraper.get_pagination_info] *)
Definition get_pagination_info (p : page) : pagination_info :=
  match pagination_bars p with
  | O => single_page
  | S _ =>
      let current := read_current (active_texts p) in
      let total := max_link current (link_texts p) in
      match next_available (next_classes p) with
      | None => single_page
      | Some next => mkinfo current total next
      end
  end.

(** [EnhancedTransactionIDScraper.go_to_next_page]: the value returned
    and the clicks made on the way. *)
Definition go_to_next_page (p : page) : bool * list strategy :=
  match first_resolved (next_controls p) with
  | None => (false, [])
  | Some next_button =>
      match parent_class next_button with
      | None => (false, [])
      | Some c =>
          if Py.contains "disabled" c then (false, [])
          else
            match click next_button with
            | Clicked => (true, [Native])
            | _ =>
                match script_click next_button with
                | Clicked => (true, [Native; Scripted])
                | _ => (false, [Native; Scripted])
                end
            end
      end
  end.

Section Run.

(** The browser: its states, the page each state shows and the state
    reached when a click on the next-page control goes through. *)
Variable browser : Type.
Variable view : browser -> page.
Variable next : browser -> browser.

(** [EnhancedTransactionIDScraper.scrape_all_pages], entered with
    [page_count] and [all_transaction_ids] as they stand at the top of the
    loop. *)
Fixpoint scrape_loop (fuel : nat) (max_pages : option Z)
    (date_filter : option (string * string)) (page_count : Z)
    (all_transaction_ids : list string) (b : browser)
    : option (list string) :=
  match fuel with
  | O => None
  | S fuel' =>
      let page_count := page_count + 1 in
      if over_limit max_pages page_count then Some all_transaction_ids
      else
        let pagination_info := get_pagination_info (view b) in
        let all_transaction_ids :=
          all_transaction_ids
          ++ extract_transaction_ids date_filter (view b) in
        if negb (has_next pagination_info) then Some all_transaction_ids
        else if fst (go_to_next_page (view b))
             then scrape_loop fuel' max_pages date_filter page_count
                    all_transaction_ids (next b)
             else Some all_transaction_ids
  end.

Definition scrape_all_pages (fuel : nat) (max_pages : option Z)
    (date_filter : option (string * string)) (b : browser)
    : option (list string) :=
  scrape_loop fuel max_pages date_filter 0 [] b.

End Run.

End Enhanced.

(** ** [scrape_transaction_ids.py] *)

Module ScrapeTransactionIds.

Section Main.

Variable browser : Type.
Variable view : browser -> Improved.page.
Variable next : browser -> browser.

(** The [while True] of [main], entered with [page_count] and
    [all_transaction_ids] as they stand at the top of the loop. *)
Fixpoint scrape_loop (fuel : nat) (page_count : Z)
    (all_transaction_ids : list string) (b : browser)
    : option (list string) :=
  match fuel with
  | O => None
  | S fuel' =>
      let page_count := page_count + 1 in
      let pagination_info := Improved.get_pagination_info (view b) in
      let all_transaction_ids :=
        all_transaction_ids ++ Improved.extract_table_data (view b) in
      if negb (has_next pagination_info) || (100 <=? page_count)
      then Some all_transaction_ids
      else if fst (Improved.go_to_next_page (view b))
           then scrape_loop fuel' page_count all_transaction_ids (next b)
           else Some all_transaction_ids
  end.

(** The identifiers [main] has collected when it leaves its loop, from
    the state the browser is in once the filters are set. *)
Definition main (fuel : nat) (b : browser) : option (list string) :=
  scrape_loop fuel 0 [] b.

End Main.

End ScrapeTransactionIds.

(** ** [fast_scraper.py]: [FastCinetPayScraper] *)

Module Fast.

Record page : Type := mkpage {
  (** [.payments-collected-table tbody tr], each row by the texts of its
      [td] cells *)
  rows : list (list string);
  (** [class] attribute of each [.pagination .page-item:last-child] *)
  last_item_classes : list (option string);
  (** how the scripted click on
      [.pagination .page-item:last-child button] ends; [None] when
      [find_element] raises [NoSuchElementException] *)
  next_button : option click_outcome
}.

(** The body of [for row in rows]. *)
Definition extract_row (cells : list string) : option string :=
  if (2 <=? length cells)%nat then
    let txn_id := Py.strip (nth 1 cells "") in
    if Py.truthy txn_id && negb (String.eqb txn_id "")
    then Some txn_id else None
  else None.

Fixpoint extract_rows (rs : list (list string)) : list string :=
  match rs with
  | [] => []
  | r :: rest =>
      match extract_row r with
      | Some i => i :: extract_rows rest
      | None => extract_rows rest
      end
  end.

(** [FastCinetPayScraper.extract_transaction_ids_fast]; without rows the
    wait times out and the handler returns the empty list. *)
Definition extract_transaction_ids_fast (p : page) : list string :=
  extract_rows (rows p).

(** [FastCinetPayScraper.has_next_page] *)
Definition has_next_page (p : page) : bool :=
  match last_item_classes p with
  | [] => false
  | Some c :: _ => negb (Py.contains "disabled" c)
  | None :: _ => false
  end.

(** [FastCinetPayScraper.go_next_page] *)
Definition go_next_page (p : page) : bool :=
  match next_button p with
  | Some Clicked => true
  | _ => false
  end.

Section Run.

Variable browser : Type.
Variable view : browser -> page.
Variable next : browser -> browser.

(** [set_filters_fast(country_code, date_range)]: the state it leaves the
    browser in, [None] when it raises. *)
Variable set_filters_fast :
  string -> string * string -> browser -> option browser.

(** The [while True] of [scrape_country_fast], entered with [page] and
    [all_transaction_ids] as they stand at the top of the loop. *)
Fixpoint scrape_loop (fuel : nat) (max_pages : option Z) (page : Z)
    (all_transaction_ids : list string) (b : browser)
    : option (list string) :=
  match fuel with
  | O => None
  | S fuel' =>
      if over_limit max_pages page then Some all_transaction_ids
      else
        let all_transaction_ids :=
          all_transaction_ids ++ extract_transaction_ids_fast (view b) in
        if negb (has_next_page (view b)) then Some all_transaction_ids
        else if go_next_page (view b)
             then scrape_loop fuel' max_pages (page + 1)
                    all_transaction_ids (next b)
             else Some all_transaction_ids
  end.


End Run.

End Fast.

(** ** Notions used in the statements *)

(** An identifier that is empty or made of whitespace only. *)
Fixpoint all_space (s : string) : bool :=
  match s with
  | EmptyString => true
  | String c r => Py.is_space c && all_space r
  end.

(** A calendar day is not after another. *)
Definition date_le (a b : Py.datetime) : Prop :=
  Py.year a < Py.year b
  \/ (Py.year a = Py.year b
      /\ (Py.month a < Py.month b
          \/ (Py.month a = Py.month b /\ Py.day a <= Py.day b))).

(** The data-model invariant of a pagination state. *)
Definition valid_state (i : pagination_info) : Prop :=
  1 <= current_page i /\ current_page i <= total_pages i.

(** A row of the payments table that [CinetPayScraper] can read: it has
    its five columns and its payload, if any, does not break the row. *)
Definition readable (json_loads : string -> option Basic.json)
    (r : Basic.row) : bool :=
  (5 <=? length (Basic.cells r))%nat
  && match Basic.enrich json_loads r with Some _ => true | None => false end.

(** The rows of a page that [CinetPayScraper.extract_table_data] accepts: the readable
    ones whose identifier is not blank. *)
Definition accepted (json_loads : string -> option Basic.json)
    (r : Basic.row) : bool :=
  readable json_loads r && negb (all_space (nth 1 (Basic.cells r) "")).

(** The pages a browser shows over [n] successive clicks on "next". *)
Fixpoint shown {browser page : Type} (view : browser -> page)
    (next : browser -> browser) (n : nat) (b : browser) : list page :=
  match n with
  | O => []
  | S n' => view b :: shown view next n' (next b)
  end.

(** [tried] is an initial part of the escalation [order]. *)
Definition initial_part (tried order : list strategy) : Prop :=
  exists rest, order = tried ++ rest.

(** The outcome of a click strategy on a control. *)
Definition outcome_of (b : button) (s : strategy) : click_outcome :=
  match s with
  | Native => click b
  | Scripted => script_click b
  | Synthetic => pointer_click b
  end.

(** The transactions a loop holds when it is left. *)
Definition held {W : Type} (e : Improved.loop_exit W) : list string :=
  match e with
  | Improved.Break all_transactions _ => all_transactions
  | Improved.Thrown _ all_transactions _ => all_transactions
  end.



(** The five columns of a transaction, without what the payload adds. *)
Definition base (t : Basic.transaction)
  : string * string * string * string * string :=
  (Basic.date t, Basic.transaction_id t, Basic.phone_number t,
   Basic.amount t, Basic.status t).

(** The state [b] is [n] clicks away from the last page: the page it shows
    and the next [n - 1] announce a next page and let the click through,
    and the page after them announces none. *)
Fixpoint clicks_to_last {browser page : Type}
    (info : page -> pagination_info) (go : page -> bool)
    (view : browser -> page) (next : browser -> browser)
    (n : nat) (b : browser) : Prop :=
  match n with
  | O => has_next (info (view b)) = false
  | S n' =>
      has_next (info (view b)) = true
      /\ go (view b) = true
      /\ clicks_to_last info go view next n' (next b)
  end.

(** A string without whitespace. *)
Fixpoint no_space (s : string) : bool :=
  match s with
  | EmptyString => true
  | String c r => negb (Py.is_space c) && no_space r
  end.

(** A loop over pages reads exactly the [n] pages first shown from [b]:
    it goes on after each of the first [n - 1], and either the page limit
    is set and [n] is that limit, or it does not go on after the [n]-th,
    which is within the limit.  [goes_on] tells whether the loop goes on
    after a page. *)
Definition stops_at {browser page : Type} (goes_on : page -> bool)
    (view : browser -> page) (next : browser -> browser)
    (limit : option Z) (n : nat) (b : browser) : Prop :=
  (forall i, (S i < n)%nat -> goes_on (view (Nat.iter i next b)) = true)
  /\ ((exists m, limit = Some m /\ m <> 0 /\ Z.of_nat n = Z.max 0 m)
      \/ ((1 <= n)%nat
          /\ goes_on (view (Nat.iter (n - 1) next b)) = false
          /\ forall m, limit = Some m -> m <> 0 -> Z.of_nat n <= m)).

(** [CinetPayScraper.scrape_all_pages] goes on after a page when the page
    announces a next page and the click on the control goes through. *)
Definition basic_goes_on (p : Basic.page) : bool :=
  has_next (Basic.get_pagination_info p) && fst (Basic.go_to_next_page p).

(** ** Sample pages and browsers *)

Module Sample.

(** A decoder that refuses every payload. *)
Definition no_json (text : string) : option Basic.json := None.

(** A next-page control that the first click activates. *)
Definition plain_button : button :=
  mkbutton (Some "page-item") Clicked Clicked Clicked.

(** A pagination bar on page [n] of [total], "next" enabled or not. *)
Definition bar (n : string) (links : list string) (enabled : bool) : pager :=
  mkpager (Some n) links
    [Some (if enabled then "page-item" else "page-item disabled")].

Definition row_tx1 : Basic.row :=
  Basic.mkrow ["01-01-2025 10:00"; "TX1"; "237600000"; "100"; "ACCEPTED"] None.

Definition row_tx2 : Basic.row :=
  Basic.mkrow ["02-01-2025 11:00"; " TX2 "; "237600001"; "250"; "REFUSED"] None.

Definition row_blank : Basic.row :=
  Basic.mkrow ["02-01-2025 11:00"; "   "; "237600001"; "250"; "REFUSED"] None.

Definition row_loading : Basic.row :=
  Basic.mkrow ["Loading..."; "Loading..."; ""; ""; ""] None.

(** Two pages of the payments table that show the same transaction, as
    when the second read overlaps the first. *)
Definition first_page : Basic.page :=
  Basic.mkpage [row_tx1; row_blank] (bar "1" ["1"; "2"] true)
    [Some plain_button].

Definition second_page : Basic.page :=
  Basic.mkpage [row_tx1; row_tx2] (bar "2" ["1"; "2"] false)
    [Some plain_button].

Definition two_pages (b : nat) : Basic.page :=
  match b with
  | O => first_page
  | S _ => second_page
  end.

(** A table whose every page announces a further page. *)
Definition endless (b : nat) : Basic.page :=
  Basic.mkpage [row_tx1] (bar "1" ["1"; "2"] true) [Some plain_button].

(** A page of the payments table caught while a row still shows its
    placeholder in every column. *)
Definition loading_page : Basic.page :=
  Basic.mkpage [row_loading; row_tx1] (bar "1" ["1"] false) [].

(** The filter of January 2025, as [date_filter] receives it. *)
Definition january : option (string * string) :=
  Some ("2025-01-01", "2025-01-31").

(** A page of the payout search: date, reference and identifier. *)
Definition payout_page : Enhanced.page :=
  Enhanced.mkpage true
    [ ["15-01-2025 10:00"; "ref"; "TXA"];
      ["01-02-2025 09:00"; "ref"; "TXB"];
      ["01-01-2025 00:00"; "ref"; "TXC"];
      ["31-01-2025 23:59"; "ref"; "TXD"];
      ["yesterday"; "ref"; "TXE"];
      ["15-01-2025 10:00"; "ref"; "Loading..."];
      ["15-01-2025 10:00"; "ref"; "  "] ]
    1 ["1"] ["1"; "2"] [Some "page-link"] [Some plain_button].

(** A payments page whose active page link reads 0. *)
Definition page_zero : Improved.page :=
  Improved.mkpage ["TX1"]
    (mkpager (Some "0") ["0"; "1"; "2"] [Some "page-item"])
    (Some plain_button).

(** A payments page without pagination bar. *)
Definition lone_page : Improved.page :=
  Improved.mkpage ["TX1"] (mkpager None [] []) None.

(** A payout page without pagination bar. *)
Definition lone_payout_page : Enhanced.page :=
  Enhanced.mkpage true [["15-01-2025"; "ref"; "TXA"]] 0 [] [] [] [].

(** The last page: the item that holds the next-page control is
    disabled. *)
Definition disabled_button : button :=
  mkbutton (Some "page-item disabled") Clicked Clicked Clicked.

Definition last_page : Improved.page :=
  Improved.mkpage ["TX9"] (bar "3" ["1"; "2"; "3"] false)
    (Some disabled_button).

Definition last_payout_page : Enhanced.page :=
  Enhanced.mkpage true [] 1 ["3"] ["1"; "2"; "3"]
    [Some "page-link disabled"] [None; Some disabled_button].

(** A control on which the first two clicks raise and the third goes
    through: the first raises anything but an interception. *)
Definition stale_button : button :=
  mkbutton (Some "page-item") Failed Failed Clicked.

Definition stale_page : Improved.page :=
  Improved.mkpage ["TX1"] (bar "1" ["1"; "2"] true) (Some stale_button).

(** The same, the first click being intercepted. *)
Definition covered_button : button :=
  mkbutton (Some "page-item") Intercepted Failed Clicked.

Definition covered_page : Improved.page :=
  Improved.mkpage ["TX1"] (bar "1" ["1"; "2"] true) (Some covered_button).

Definition covered_basic_page : Basic.page :=
  Basic.mkpage [row_tx1] (bar "1" ["1"; "2"] true)
    [None; Some covered_button].

(** A scraper double over numbered browser states.  Cameroun starts in
    state 0, whose page announces a next page; reading the table in
    state 1 raises.  Every other country starts in state 100, a single
    page. *)
Definition flaky : Improved.methods nat :=
  {| Improved.navigate_to_transactions := fun w => Improved.Returned tt w;
     Improved.set_filters := fun f w =>
       match Improved.country_code f with
       | Some code =>
           if String.eqb code "237" then Improved.Returned tt 0%nat
           else Improved.Returned tt 100%nat
       | None => Improved.Raised "no country" w
       end;
     Improved.pagination_info := fun w =>
       Improved.Returned (mkinfo (Z.of_nat w + 1) 2 (Nat.eqb w 0)) w;
     Improved.table_data := fun w =>
       match w with
       | 0%nat => Improved.Returned ["CM1"; "CM2"] w
       | 1%nat => Improved.Raised "stale element reference" w
       | _ => Improved.Returned ["TG1"] w
       end;
     Improved.next_page := fun w => Improved.Returned true (S w) |}.

Definition no_filters : Improved.filters :=
  Improved.mkfilters None None None None.

End Sample.

(** Closes the clauses left once the outcome of every click is known. *)
Ltac settle_clicks :=
  repeat split; intros;
  repeat match goal with
         | H : _ \/ _ |- _ => destruct H
         | H : False |- _ => destruct H
         | H : @eq strategy _ _ |- _ => subst
         end;
  simpl in *; try congruence; try tauto.

(** * Properties *)

(** ** Strings *)

Lemma lstrip_all_space (s : string) :
  all_space s = true -> Py.lstrip s = "".
Proof.
  induction s as [|c r IH]; simpl; intros H; [reflexivity|].
  apply andb_true_iff in H as [Hc Hr]. rewrite Hc. auto.
Qed.

Lemma rstrip_keeps_head (c : ascii) (r : string) :
  Py.is_space c = false -> Py.rstrip (String c r) <> "".
Proof.
  intros Hc. simpl. destruct (Py.rstrip r); [rewrite Hc|]; discriminate.
Qed.

Lemma lstrip_head (s : string) :
  Py.lstrip s = "" \/
  exists c r, Py.lstrip s = String c r /\ Py.is_space c = false.
Proof.
  induction s as [|c r IH]; simpl; [now left|].
  destruct (Py.is_space c) eqn:Hc; [exact IH|].
  right. exists c, r. split; [reflexivity | exact Hc].
Qed.

Lemma lstrip_empty_all_space (s : string) :
  Py.lstrip s = "" -> all_space s = true.
Proof.
  induction s as [|c r IH]; simpl; [reflexivity|].
  destruct (Py.is_space c); [exact IH | discriminate].
Qed.

(** [s.strip()] is empty exactly when [s] is empty or whitespace only. *)
Lemma strip_empty_iff (s : string) :
  Py.strip s = "" <-> all_space s = true.
Proof.
  unfold Py.strip. split.
  - intros H. destruct (lstrip_head s) as [E | (c & r & E & Hc)].
    + now apply lstrip_empty_all_space.
    + rewrite E in H. now apply rstrip_keeps_head in H.
  - intros H. now rewrite (lstrip_all_space s H).
Qed.

Lemma truthy_false_iff (s : string) : Py.truthy s = false <-> s = "".
Proof. destruct s; simpl; split; congruence. Qed.

Lemma truthy_true_iff (s : string) : Py.truthy s = true <-> s <> "".
Proof. destruct s; simpl; split; congruence. Qed.

(** ** Row extraction *)

Lemma enhanced_row_some (date_filter : option (string * string))
    (cells : list string) (i : string) :
  Enhanced.extract_row date_filter cells = Some i ->
  i = Py.strip (nth 2 cells "") /\ i <> ""
  /\ Py.startswith "Loading" i = false.
Proof.
  unfold Enhanced.extract_row.
  destruct (2 <? length cells)%nat; [|discriminate].
  destruct (Py.truthy (Py.strip (nth 2 cells ""))) eqn:Ht; [|discriminate].
  destruct (String.eqb (Py.strip (nth 2 cells "")) ""); [discriminate|].
  destruct (Py.startswith "Loading" (Py.strip (nth 2 cells ""))) eqn:Hl;
    [discriminate|]. simpl.
  apply truthy_true_iff in Ht.
  destruct date_filter as [[start_date end_date]|].
  - destruct (Enhanced.is_date_in_range _ _ _); [|discriminate].
    intros [= <-]. auto.
  - intros [= <-]. auto.
Qed.

Lemma enhanced_rows_in (date_filter : option (string * string))
    (rs : list (list string)) (i : string) :
  In i (Enhanced.extract_rows date_filter rs) ->
  exists cells, In cells rs /\ Enhanced.extract_row date_filter cells = Some i.
Proof.
  induction rs as [|r rest IH]; simpl; [tauto|].
  destruct (Enhanced.extract_row date_filter r) eqn:E.
  - intros [<- | H].
    + exists r. auto.
    + destruct (IH H) as (c & Hc & Ec). exists c. auto.
  - intros H. destruct (IH H) as (c & Hc & Ec). exists c. auto.
Qed.

Lemma basic_row_some (json_loads : string -> option Basic.json)
    (r : Basic.row) (t : Basic.transaction) :
  Basic.extract_row json_loads r = Some t ->
  Basic.transaction_id t = Py.strip (nth 1 (Basic.cells r) "")
  /\ Basic.transaction_id t <> "" /\ readable json_loads r = true.
Proof.
  unfold Basic.extract_row, readable, Basic.cell.
  destruct (5 <=? length (Basic.cells r))%nat; [|discriminate].
  destruct (Py.truthy (Py.strip (nth 1 (Basic.cells r) ""))) eqn:Ht;
    [|discriminate].
  destruct (Basic.enrich json_loads r); [|discriminate].
  intros [= <-]. simpl. apply truthy_true_iff in Ht. auto.
Qed.

Lemma basic_rows_in (json_loads : string -> option Basic.json)
    (rs : list Basic.row) (t : Basic.transaction) :
  In t (Basic.extract_rows json_loads rs) ->
  exists r, In r rs /\ Basic.extract_row json_loads r = Some t.
Proof.
  induction rs as [|r rest IH]; simpl; [tauto|].
  destruct (Basic.extract_row json_loads r) eqn:E.
  - intros [<- | H].
    + exists r. auto.
    + destruct (IH H) as (c & Hc & Ec). exists c. auto.
  - intros H. destruct (IH H) as (c & Hc & Ec). exists c. auto.
Qed.

(** C2, as stated, fails on [CinetPayScraper.extract_table_data]: a row
    whose identifier column shows the loading placeholder yields a record
    whose identifier is that placeholder. *)
Lemma basic_extractor_keeps_placeholder :
  map Basic.transaction_id
    (Basic.extract_table_data Sample.no_json Sample.loading_page)
  = ["Loading..."; "TX1"].
Proof. reflexivity. Qed.

(** C2 (amended): a row whose identifier column is empty or whitespace-only
    produces no record in either extractor, a row whose identifier starts
    with the placeholder [Loading] produces none in
    [extract_transaction_ids], and every record that either extractor
    returns carries the stripped, non-empty identifier of one of the rows
    of the page. *)
Theorem surviving_records_have_identifier :
  (forall date_filter cells,
      all_space (nth 2 cells "") = true
      \/ Py.startswith "Loading" (Py.strip (nth 2 cells "")) = true ->
      Enhanced.extract_row date_filter cells = None)
  /\ (forall date_filter p i,
        In i (Enhanced.extract_transaction_ids date_filter p) ->
        i <> "" /\ Py.startswith "Loading" i = false
        /\ exists cells, In cells (Enhanced.rows p)
                         /\ i = Py.strip (nth 2 cells ""))
  /\ (forall json_loads r,
        all_space (nth 1 (Basic.cells r) "") = true ->
        Basic.extract_row json_loads r = None)
  /\ (forall json_loads p t,
        In t (Basic.extract_table_data json_loads p) ->
        Basic.transaction_id t <> ""
        /\ exists r, In r (Basic.rows p)
             /\ Basic.transaction_id t = Py.strip (nth 1 (Basic.cells r) "")).
Proof.
  repeat split.
  - intros date_filter cells H.
    destruct (Enhanced.extract_row date_filter cells) as [i|] eqn:E;
      [|reflexivity].
    apply enhanced_row_some in E as (Ei & Hne & Hl). subst i.
    destruct H as [H | H].
    + apply strip_empty_iff in H. contradiction.
    + congruence.
  - unfold Enhanced.extract_transaction_ids in H.
    destruct (Enhanced.has_table p); [|contradiction].
    apply enhanced_rows_in in H as (c & _ & E).
    now apply enhanced_row_some in E.
  - unfold Enhanced.extract_transaction_ids in H.
    destruct (Enhanced.has_table p); [|contradiction].
    apply enhanced_rows_in in H as (c & _ & E).
    now apply enhanced_row_some in E.
  - unfold Enhanced.extract_transaction_ids in H.
    destruct (Enhanced.has_table p); [|contradiction].
    apply enhanced_rows_in in H as (c & Hc & E).
    exists c. split; [exact Hc|]. now apply enhanced_row_some in E.
  - intros json_loads r H.
    destruct (Basic.extract_row json_loads r) as [t|] eqn:E; [|reflexivity].
    apply basic_row_some in E as (Ei & Hne & _).
    apply strip_empty_iff in H. congruence.
  - apply basic_rows_in in H as (r & _ & E).
    now apply basic_row_some in E.
  - apply basic_rows_in in H as (r & Hr & E).
    exists r. split; [exact Hr|]. now apply basic_row_some in E.
Qed.

(** ** Validation over a run of [CinetPayScraper] *)

Lemma truthy_strip (s : string) :
  Py.truthy (Py.strip s) = negb (all_space s).
Proof.
  destruct (all_space s) eqn:H; simpl.
  - apply truthy_false_iff. now apply strip_empty_iff.
  - apply truthy_true_iff. intros E. apply strip_empty_iff in E. congruence.
Qed.

Lemma basic_row_accepted (json_loads : string -> option Basic.json)
    (r : Basic.row) :
  match Basic.extract_row json_loads r with
  | Some t =>
      accepted json_loads r = true
      /\ Basic.transaction_id t = Py.strip (nth 1 (Basic.cells r) "")
  | None => accepted json_loads r = false
  end.
Proof.
  unfold Basic.extract_row, accepted, readable, Basic.cell.
  rewrite truthy_strip.
  destruct (5 <=? length (Basic.cells r))%nat; simpl; [|reflexivity].
  destruct (all_space (nth 1 (Basic.cells r) "")); simpl.
  - now rewrite andb_false_r.
  - destruct (Basic.enrich json_loads r); simpl; auto.
Qed.

Lemma basic_page_ids (json_loads : string -> option Basic.json)
    (rs : list Basic.row) :
  map Basic.transaction_id (Basic.extract_rows json_loads rs)
  = map (fun r => Py.strip (nth 1 (Basic.cells r) ""))
        (filter (accepted json_loads) rs).
Proof.
  induction rs as [|r rest IH]; simpl; [reflexivity|].
  pose proof (basic_row_accepted json_loads r) as H.
  destruct (Basic.extract_row json_loads r) as [t|].
  - destruct H as [Ha Ht]. rewrite Ha. simpl. now rewrite Ht, IH.
  - rewrite H. exact IH.
Qed.

Lemma map_flat_map {A B C : Type} (f : B -> C) (g : A -> list B)
    (l : list A) :
  map f (flat_map g l) = flat_map (fun a => map f (g a)) l.
Proof.
  induction l as [|a l IH]; simpl; [reflexivity|].
  now rewrite map_app, IH.
Qed.

Section BasicRun.

Variable json_loads : string -> option Basic.json.
Variable browser : Type.
Variable view : browser -> Basic.page.
Variable next : browser -> browser.

(** The loop only ever appends the extraction of the pages it is shown,
    in the order it is shown them. *)
Lemma basic_loop_appends (fuel : nat) (max_pages : option Z) :
  forall (page_count : Z) (acc : list Basic.transaction) (b : browser)
         (out : list Basic.transaction),
    Basic.scrape_loop json_loads browser view next fuel max_pages
      page_count acc b = Some out ->
    exists n, (n <= fuel)%nat
      /\ out = acc ++ flat_map (Basic.extract_table_data json_loads)
                        (shown view next n b).
Proof.
  induction fuel as [|fuel IH]; intros page_count acc b out; simpl;
    [discriminate|].
  destruct (over_limit max_pages (page_count + 1)).
  { intros [= <-]. exists 0%nat. simpl. rewrite app_nil_r. split; [lia|auto]. }
  destruct (negb (has_next (Basic.get_pagination_info (view b)))).
  { intros [= <-]. exists 1%nat. simpl. rewrite app_nil_r.
    split; [lia|auto]. }
  destruct (fst (Basic.go_to_next_page (view b))).
  - intros H. apply IH in H as (n & Hn & ->).
    exists (S n). simpl. rewrite <- app_assoc. split; [lia|auto].
  - intros [= <-]. exists 1%nat. simpl. rewrite app_nil_r.
    split; [lia|auto].
Qed.

(** The pages read by the loop are pinned by what the pages report and
    by the page limit. *)
Lemma basic_loop_pages (fuel : nat) (max_pages : option Z) :
  forall (page_count : Z) (acc : list Basic.transaction) (b : browser)
         (out : list Basic.transaction),
    Basic.scrape_loop json_loads browser view next fuel max_pages
      page_count acc b = Some out ->
    exists n,
      out = acc ++ flat_map (Basic.extract_table_data json_loads)
                     (shown view next n b)
      /\ (forall i, (S i < n)%nat ->
                    basic_goes_on (view (Nat.iter i next b)) = true)
      /\ ((exists m, max_pages = Some m /\ m <> 0
                     /\ Z.of_nat n = Z.max 0 (m - page_count))
          \/ ((1 <= n)%nat
              /\ basic_goes_on (view (Nat.iter (n - 1) next b)) = false
              /\ forall m, max_pages = Some m -> m <> 0 ->
                           Z.of_nat n <= m - page_count)).
Proof.
  induction fuel as [|fuel IH]; intros page_count acc b out;
    cbn [Basic.scrape_loop]; [discriminate|].
  destruct (over_limit max_pages (page_count + 1)) eqn:E.
  { intros [= <-]. exists 0%nat. cbn [shown flat_map].
    rewrite app_nil_r. split; [reflexivity|]. split; [intros; lia|].
    left. destruct max_pages as [m|]; [|discriminate].
    cbn [over_limit] in E. apply andb_true_iff in E as [E1 E2].
    apply negb_true_iff in E1. apply Z.eqb_neq in E1.
    apply Z.ltb_lt in E2. exists m. repeat split; auto. lia. }
  assert (Hroom : forall m, max_pages = Some m -> m <> 0 ->
                            page_count + 1 <= m).
  { intros m -> Hm. cbn [over_limit] in E. apply Z.eqb_neq in Hm.
    rewrite Hm in E. cbn [negb andb] in E. now apply Z.ltb_ge in E. }
  assert (Hstop : basic_goes_on (view b) = false ->
            exists n,
              acc ++ Basic.extract_table_data json_loads (view b)
              = acc ++ flat_map (Basic.extract_table_data json_loads)
                         (shown view next n b)
              /\ (forall i, (S i < n)%nat ->
                     basic_goes_on (view (Nat.iter i next b)) = true)
              /\ ((exists m, max_pages = Some m /\ m <> 0
                       /\ Z.of_nat n = Z.max 0 (m - page_count))
                  \/ ((1 <= n)%nat
                      /\ basic_goes_on (view (Nat.iter (n - 1) next b))
                         = false
                      /\ forall m, max_pages = Some m -> m <> 0 ->
                                   Z.of_nat n <= m - page_count))).
  { intros Hg. exists 1%nat. cbn [shown flat_map]. rewrite app_nil_r.
    split; [reflexivity|]. split; [intros; lia|]. right.
    split; [lia|]. split; [exact Hg|].
    intros m Hm Hz. specialize (Hroom m Hm Hz). lia. }
  unfold basic_goes_on in Hstop.
  destruct (has_next (Basic.get_pagination_info (view b))) eqn:Hn;
    cbn [negb].
  2: { intros [= <-]. now apply Hstop. }
  destruct (fst (Basic.go_to_next_page (view b))) eqn:Hc.
  2: { intros [= <-]. now apply Hstop. }
  intros H. apply IH in H as (n & -> & Hgo & Hend).
  exists (S n). cbn [shown flat_map]. rewrite <- app_assoc.
  split; [reflexivity|]. split.
  - intros [|i] Hi.
    + change (Nat.iter 0 next b) with b. unfold basic_goes_on.
      now rewrite Hn, Hc.
    + rewrite Nat.iter_succ_r. apply Hgo. lia.
  - destruct Hend as [(m & Hm & Hz & Hn') | (H1 & Hg & Hb)].
    + left. exists m. specialize (Hroom m Hm Hz).
      repeat split; auto. lia.
    + right. split; [lia|]. split.
      * replace (S n - 1)%nat with (S (n - 1)) by lia.
        rewrite Nat.iter_succ_r. exact Hg.
      * intros m Hm Hz. specialize (Hb m Hm Hz). lia.
Qed.

End BasicRun.

(** The number of pages that [stops_at] allows is unique. *)
Lemma stops_at_not_before {browser page : Type} (goes_on : page -> bool)
    (view : browser -> page) (next : browser -> browser)
    (limit : option Z) (n n' : nat) (b : browser) :
  stops_at goes_on view next limit n b ->
  stops_at goes_on view next limit n' b ->
  ~ (n < n')%nat.
Proof.
  intros [_ Hend] [Hgo' Hend'] Hlt.
  destruct Hend as [(m & Hm & Hz & Hn) | (H1 & Hg & Hb)].
  - destruct Hend' as [(m' & Hm' & Hz' & Hn') | (H1' & Hg' & Hb')].
    + rewrite Hm in Hm'. injection Hm' as <-. lia.
    + specialize (Hb' m Hm Hz). lia.
  - rewrite Hgo' in Hg; [discriminate | lia].
Qed.

Lemma stops_at_unique {browser page : Type} (goes_on : page -> bool)
    (view : browser -> page) (next : browser -> browser)
    (limit : option Z) (n n' : nat) (b : browser) :
  stops_at goes_on view next limit n b ->
  stops_at goes_on view next limit n' b ->
  n = n'.
Proof.
  intros H H'.
  pose proof (stops_at_not_before _ _ _ _ _ _ _ H H').
  pose proof (stops_at_not_before _ _ _ _ _ _ _ H' H).
  lia.
Qed.

(** C1, as stated, fails: the same identifier on two pages of a run is
    returned twice. *)
Lemma duplicate_identifiers_are_kept :
  exists out,
    Basic.scrape_all_pages Sample.no_json nat Sample.two_pages S 5 None 0%nat
    = Some out
    /\ map Basic.transaction_id out = ["TX1"; "TX1"; "TX2"]
    /\ ~ NoDup (map Basic.transaction_id out).
Proof.
  eexists. split; [reflexivity|]. split; [reflexivity|].
  simpl. intros H. inversion H as [|x l Hin _]; subst.
  apply Hin. now left.
Qed.

(** C1 (amended): a finished run reads the pages shown one after the
    other until a page announces no next page, or the click on the
    next-page control fails, or [max_pages] pages have been read; it
    returns, page after page and row after row in the order read, one
    record for every readable row of these pages whose identifier is not
    empty or whitespace-only, and nothing else; a row is not rejected for
    repeating an identifier already returned. *)
Theorem run_keeps_every_identified_row
    (json_loads : string -> option Basic.json) (browser : Type)
    (view : browser -> Basic.page) (next : browser -> browser)
    (fuel : nat) (max_pages : option Z) (b : browser)
    (out : list Basic.transaction) :
  Basic.scrape_all_pages json_loads browser view next fuel max_pages b
  = Some out ->
  exists n,
    stops_at basic_goes_on view next max_pages n b
    /\ out = flat_map (Basic.extract_table_data json_loads)
               (shown view next n b)
    /\ map Basic.transaction_id out
       = flat_map
           (fun p => map (fun r => Py.strip (nth 1 (Basic.cells r) ""))
                         (filter (accepted json_loads) (Basic.rows p)))
           (shown view next n b).
Proof.
  unfold Basic.scrape_all_pages. intros H.
  apply basic_loop_pages in H as (n & -> & Hgo & Hend). cbn [app].
  exists n. split; [|split; [reflexivity|]].
  - split; [exact Hgo|].
    destruct Hend as [(m & Hm & Hz & Hn) | (H1 & Hg & Hb)].
    + left. exists m. rewrite Z.sub_0_r in Hn. auto.
    + right. split; [exact H1|]. split; [exact Hg|].
      intros m Hm Hz. specialize (Hb m Hm Hz). lia.
  - rewrite map_flat_map. induction (shown view next n b) as [|p ps IH];
      cbn [flat_map]; [reflexivity|].
    unfold Basic.extract_table_data at 1. now rewrite basic_page_ids, IH.
Qed.

Lemma run_keeps_every_identified_row_witness :
  exists out n,
    Basic.scrape_all_pages Sample.no_json nat Sample.two_pages S 5 None 0%nat
    = Some out
    /\ stops_at basic_goes_on Sample.two_pages S None n 0%nat
    /\ out = flat_map (Basic.extract_table_data Sample.no_json)
               (shown Sample.two_pages S n 0%nat)
    /\ map Basic.transaction_id out
       = flat_map
           (fun p => map (fun r => Py.strip (nth 1 (Basic.cells r) ""))
                         (filter (accepted Sample.no_json) (Basic.rows p)))
           (shown Sample.two_pages S n 0%nat).
Proof.
  eexists.
  destruct (run_keeps_every_identified_row Sample.no_json nat
              Sample.two_pages S 5 None 0%nat _ eq_refl) as (n & H).
  exists n. split; [reflexivity | exact H].
Defined.

Lemma surviving_records_have_identifier_witness :
  Enhanced.extract_row Sample.january ["15-01-2025"; "ref"; "Loading..."]
  = None
  /\ "TXA" <> ""
  /\ Basic.extract_row Sample.no_json Sample.row_blank = None
  /\ (forall t, In t (Basic.extract_table_data Sample.no_json
                        Sample.first_page) ->
                Basic.transaction_id t <> "").
Proof.
  destruct surviving_records_have_identifier as (H1 & H2 & H3 & H4).
  split; [|split; [|split]].
  - apply H1. right. reflexivity.
  - apply (H2 Sample.january Sample.payout_page "TXA"). simpl. now left.
  - apply H3. reflexivity.
  - intros t Ht. now apply (H4 _ _ _ Ht).
Defined.

(** ** The date filter of [extract_transaction_ids] *)

Lemma date_leb_iff (a b : Py.datetime) :
  Py.date_leb a b = true <-> date_le a b.
Proof.
  unfold Py.date_leb, date_le.
  rewrite orb_true_iff, andb_true_iff, orb_true_iff, andb_true_iff.
  rewrite !Z.ltb_lt, !Z.eqb_eq, Z.leb_le. reflexivity.
Qed.

(** [is_date_in_range] answers [True] exactly when the first word of the
    date cell, the start and the end all parse and the day lies between
    the two bounds, bounds included. *)
Lemma is_date_in_range_iff (date_text start_date end_date : string) :
  Enhanced.is_date_in_range date_text start_date end_date = true <->
  exists first rest d s e,
    Py.split date_text = first :: rest
    /\ Py.strptime_dmY first = Some d
    /\ Py.strptime_Ymd start_date = Some s
    /\ Py.strptime_Ymd end_date = Some e
    /\ date_le s d /\ date_le d e.
Proof.
  unfold Enhanced.is_date_in_range. split.
  - destruct (Py.split date_text) as [|first rest]; [discriminate|].
    destruct (Py.strptime_dmY first) as [d|] eqn:Ed; [|discriminate].
    destruct (Py.strptime_Ymd start_date) as [s|] eqn:Es; [|discriminate].
    destruct (Py.strptime_Ymd end_date) as [e|] eqn:Ee; [|discriminate].
    intros H. apply andb_true_iff in H as [H1 H2].
    apply date_leb_iff in H1, H2.
    exists first, rest, d, s, e. repeat split; auto.
  - intros (first & rest & d & s & e & -> & -> & -> & -> & H1 & H2).
    apply andb_true_iff. split; now apply date_leb_iff.
Qed.

Lemma enhanced_row_filtered (cells : list string)
    (start_date end_date : string) :
  (2 < length cells)%nat ->
  Py.strip (nth 2 cells "") <> "" ->
  Py.startswith "Loading" (Py.strip (nth 2 cells "")) = false ->
  Enhanced.extract_row (Some (start_date, end_date)) cells
  = if Enhanced.is_date_in_range (Py.strip (nth 0 cells ""))
         start_date end_date
    then Some (Py.strip (nth 2 cells "")) else None.
Proof.
  intros Hlen Hne Hl. unfold Enhanced.extract_row.
  apply Nat.ltb_lt in Hlen. rewrite Hlen, Hl.
  apply truthy_true_iff in Hne as Ht. rewrite Ht.
  apply String.eqb_neq in Hne. rewrite Hne. reflexivity.
Qed.

(** C4: when a date filter is given, a row with an identifier is kept if
    and only if the day in its date cell, read as DD-MM-YYYY, lies between
    the start and the end of the filter, both included; for the filter
    2025-01-01 to 2025-01-31 the days 15-01-2025, 01-01-2025 and 31-01-2025
    are in range and 01-02-2025 is not. *)
Theorem date_filter_is_inclusive :
  (forall (cells : list string) (start_date end_date : string),
      (2 < length cells)%nat ->
      Py.strip (nth 2 cells "") <> "" ->
      Py.startswith "Loading" (Py.strip (nth 2 cells "")) = false ->
      (Enhanced.extract_row (Some (start_date, end_date)) cells
       = Some (Py.strip (nth 2 cells "")) <->
       exists first rest d s e,
         Py.split (Py.strip (nth 0 cells "")) = first :: rest
         /\ Py.strptime_dmY first = Some d
         /\ Py.strptime_Ymd start_date = Some s
         /\ Py.strptime_Ymd end_date = Some e
         /\ date_le s d /\ date_le d e)
      /\ (Enhanced.extract_row (Some (start_date, end_date)) cells = None <->
          Enhanced.is_date_in_range (Py.strip (nth 0 cells ""))
            start_date end_date = false))
  /\ Enhanced.is_date_in_range "01-02-2025" "2025-01-01" "2025-01-31" = false
  /\ Enhanced.is_date_in_range "15-01-2025" "2025-01-01" "2025-01-31" = true
  /\ Enhanced.is_date_in_range "01-01-2025" "2025-01-01" "2025-01-31" = true
  /\ Enhanced.is_date_in_range "31-01-2025" "2025-01-01" "2025-01-31" = true
  /\ Enhanced.extract_transaction_ids Sample.january Sample.payout_page
     = ["TXA"; "TXC"; "TXD"].
Proof.
  split; [|repeat split; reflexivity].
  intros cells start_date end_date Hlen Hne Hl.
  rewrite (enhanced_row_filtered cells start_date end_date Hlen Hne Hl).
  rewrite <- is_date_in_range_iff.
  destruct (Enhanced.is_date_in_range _ _ _); split; split;
    congruence.
Qed.

Lemma date_filter_is_inclusive_witness :
  Enhanced.extract_row Sample.january ["31-01-2025 23:59"; "ref"; "TXD"]
  = Some "TXD"
  /\ Enhanced.extract_row Sample.january ["01-02-2025 09:00"; "ref"; "TXB"]
     = None.
Proof.
  split.
  - destruct (proj1 date_filter_is_inclusive
                ["31-01-2025 23:59"; "ref"; "TXD"] "2025-01-01" "2025-01-31")
      as [[_ H] _]; [simpl; lia | discriminate | reflexivity |].
    apply H.
    exists "31-01-2025", ["23:59"], (Py.mkdate 2025 1 31),
      (Py.mkdate 2025 1 1), (Py.mkdate 2025 1 31).
    repeat split; try reflexivity; unfold date_le; simpl; lia.
  - destruct (proj1 date_filter_is_inclusive
                ["01-02-2025 09:00"; "ref"; "TXB"] "2025-01-01" "2025-01-31")
      as [_ [_ H]]; [simpl; lia | discriminate | reflexivity |].
    apply H. reflexivity.
Defined.

(** C10: when a date filter is given, a row whose date cell is blank, or
    whose first word does not parse as DD-MM-YYYY, is left out: the range
    check answers [False] and no identifier is appended. *)
Theorem unparsable_date_is_excluded (cells : list string)
    (start_date end_date : string) :
  (forall first rest,
      Py.split (Py.strip (nth 0 cells "")) = first :: rest ->
      Py.strptime_dmY first = None) ->
  Enhanced.is_date_in_range (Py.strip (nth 0 cells "")) start_date end_date
  = false
  /\ Enhanced.extract_row (Some (start_date, end_date)) cells = None.
Proof.
  intros H.
  assert (E : Enhanced.is_date_in_range (Py.strip (nth 0 cells ""))
                start_date end_date = false).
  { unfold Enhanced.is_date_in_range.
    destruct (Py.split (Py.strip (nth 0 cells ""))) as [|first rest];
      [reflexivity|].
    now rewrite (H first rest eq_refl). }
  split; [exact E|].
  unfold Enhanced.extract_row. rewrite E.
  destruct (2 <? length cells)%nat; [|reflexivity].
  now destruct (_ && _ && _).
Qed.

Lemma unparsable_date_is_excluded_witness :
  Enhanced.is_date_in_range "yesterday" "2025-01-01" "2025-01-31" = false
  /\ Enhanced.extract_row Sample.january ["yesterday"; "ref"; "TXE"] = None.
Proof.
  apply (unparsable_date_is_excluded ["yesterday"; "ref"; "TXE"]
           "2025-01-01" "2025-01-31").
  intros first rest [= <- <-]. reflexivity.
Defined.

(** ** Reading the pagination state *)

Lemma max_page_ge (links : list string) :
  forall total, total <= max_page total links.
Proof.
  induction links as [|t rest IH]; simpl; intros total; [lia|].
  destruct (Py.int t) as [n|]; [|apply IH].
  specialize (IH (Z.max total n)). lia.
Qed.

Lemma max_page_in (links : list string) (l : string) (n : Z) :
  In l links -> Py.int l = Some n ->
  forall total, n <= max_page total links.
Proof.
  induction links as [|t rest IH]; simpl; [tauto|].
  intros [-> | Hin] Hn total.
  - rewrite Hn. pose proof (max_page_ge rest (Z.max total n)). lia.
  - destruct (Py.int t); now apply IH.
Qed.

Lemma max_link_ge (links : list string) :
  forall total, total <= Enhanced.max_link total links.
Proof.
  induction links as [|t rest IH]; simpl; intros total; [lia|].
  destruct (Py.int (Py.strip t)) as [n|]; [|apply IH].
  specialize (IH (Z.max total n)). lia.
Qed.

(** C6: on a page without pagination control the read returns
    [{current_page: 1, total_pages: 1, has_next: False}]: in
    [ImprovedCinetPayScraper] the active page link is not found and the
    handler answers, in [EnhancedTransactionIDScraper] the list of
    pagination bars is empty. *)
Theorem no_pagination_is_single_page :
  (forall p : Improved.page,
      active_text (Improved.pagination p) = None ->
      Improved.get_pagination_info p = mkinfo 1 1 false)
  /\ (forall p : Enhanced.page,
        Enhanced.pagination_bars p = 0%nat ->
        Enhanced.get_pagination_info p = mkinfo 1 1 false).
Proof.
  split; intros p H.
  - unfold Improved.get_pagination_info. now rewrite H.
  - unfold Enhanced.get_pagination_info. now rewrite H.
Qed.

Lemma no_pagination_is_single_page_witness :
  Improved.get_pagination_info Sample.lone_page = mkinfo 1 1 false
  /\ Enhanced.get_pagination_info Sample.lone_payout_page = mkinfo 1 1 false.
Proof.
  split.
  - apply (proj1 no_pagination_is_single_page). reflexivity.
  - apply (proj2 no_pagination_is_single_page). reflexivity.
Defined.

(** C9, as stated, fails: an active page link that reads 0 is returned as
    [current_page]. *)
Lemma page_zero_breaks_invariant :
  Improved.get_pagination_info Sample.page_zero = mkinfo 0 2 true
  /\ ~ valid_state (Improved.get_pagination_info Sample.page_zero).
Proof.
  split; [reflexivity|]. intros [H _].
  change (current_page (Improved.get_pagination_info Sample.page_zero))
    with 0 in H.
  lia.
Qed.

(** C9 (amended): the enhanced read always returns
    [total_pages >= current_page], the improved read always returns
    [total_pages >= 1], and the fallback value satisfies the invariant;
    a returned value satisfies the whole invariant whenever the number
    shown by the active page indicator, if it shows one, is at least 1
    and, for the improved read, is also shown by one of the page links. *)
Theorem pagination_state_invariant :
  (forall p : Enhanced.page,
      current_page (Enhanced.get_pagination_info p)
      <= total_pages (Enhanced.get_pagination_info p))
  /\ (forall p : Improved.page,
        1 <= total_pages (Improved.get_pagination_info p))
  /\ valid_state single_page
  /\ (forall p : Enhanced.page,
        (forall t rest n,
            Enhanced.active_texts p = t :: rest ->
            Py.int (Py.strip t) = Some n -> 1 <= n) ->
        valid_state (Enhanced.get_pagination_info p))
  /\ (forall p : Improved.page,
        (forall t n,
            active_text (Improved.pagination p) = Some t ->
            Py.int t = Some n ->
            1 <= n /\ exists l, In l (link_texts (Improved.pagination p))
                                /\ Py.int l = Some n) ->
        valid_state (Improved.get_pagination_info p)).
Proof.
  assert (Hs : valid_state single_page) by (unfold valid_state; simpl; lia).
  split; [|split; [|split; [exact Hs|split]]].
  - intros p. unfold Enhanced.get_pagination_info.
    destruct (Enhanced.pagination_bars p); [simpl; lia|].
    destruct (next_available (Enhanced.next_classes p)); [|simpl; lia].
    simpl. apply max_link_ge.
  - intros p. unfold Improved.get_pagination_info.
    destruct (active_text (Improved.pagination p)); [|simpl; lia].
    destruct (Py.int s); [|simpl; lia].
    destruct (next_available _); [|simpl; lia].
    simpl. apply max_page_ge.
  - intros p H. unfold Enhanced.get_pagination_info.
    destruct (Enhanced.pagination_bars p) as [|bars]; [exact Hs|].
    destruct (next_available (Enhanced.next_classes p)); [|exact Hs].
    unfold valid_state. simpl. split; [|apply max_link_ge].
    unfold Enhanced.read_current.
    destruct (Enhanced.active_texts p) as [|t rest]; [lia|].
    destruct (Py.int (Py.strip t)) as [n|] eqn:E; [|lia].
    exact (H t rest n eq_refl E).
  - intros p H. unfold Improved.get_pagination_info.
    destruct (active_text (Improved.pagination p)) as [t|]; [|exact Hs].
    destruct (Py.int t) as [n|] eqn:E; [|exact Hs].
    destruct (next_available _); [|exact Hs].
    destruct (H t n eq_refl E) as (Hn & l & Hl & El).
    unfold valid_state. simpl. split; [exact Hn|].
    now apply (max_page_in _ l).
Qed.

Lemma pagination_state_invariant_witness :
  valid_state (Improved.get_pagination_info Sample.last_page)
  /\ valid_state (Enhanced.get_pagination_info Sample.last_payout_page).
Proof.
  destruct pagination_state_invariant as (_ & _ & _ & He & Hi).
  split.
  - apply Hi. intros t n Ht Hn. injection Ht as <-.
    vm_compute in Hn. injection Hn as <-. split; [lia|].
    exists "3". split; [simpl; tauto | reflexivity].
  - apply He. intros t rest n Ht Hn. injection Ht as <- <-.
    vm_compute in Hn. injection Hn as <-. lia.
Defined.

(** ** Advancing to the next page *)

(** C7: when the next-page control is found and the element that holds it
    has [disabled] in its class, [go_to_next_page] returns [False] and no
    click of any kind is made. *)
Theorem disabled_next_is_last_page :
  (forall (p : Improved.page) (b : button) (c : string),
      Improved.next_button p = Some b ->
      parent_class b = Some c ->
      Py.contains "disabled" c = true ->
      Improved.go_to_next_page p = (false, []))
  /\ (forall (p : Enhanced.page) (b : button) (c : string),
        first_resolved (Enhanced.next_controls p) = Some b ->
        parent_class b = Some c ->
        Py.contains "disabled" c = true ->
        Enhanced.go_to_next_page p = (false, [])).
Proof.
  split; intros p b c Hb Hc Hd.
  - unfold Improved.go_to_next_page. now rewrite Hb, Hc, Hd.
  - unfold Enhanced.go_to_next_page. now rewrite Hb, Hc, Hd.
Qed.

Lemma disabled_next_is_last_page_witness :
  Improved.go_to_next_page Sample.last_page = (false, [])
  /\ Enhanced.go_to_next_page Sample.last_payout_page = (false, []).
Proof.
  split.
  - apply (proj1 disabled_next_is_last_page Sample.last_page
             Sample.disabled_button "page-item disabled"); reflexivity.
  - apply (proj2 disabled_next_is_last_page Sample.last_payout_page
             Sample.disabled_button "page-item disabled"); reflexivity.
Defined.

(** C3, as stated, fails: on a control whose native click raises an error
    that is not an interception, whose scripted click raises too and whose
    synthetic click would go through, [go_to_next_page] returns [False]
    after the native click alone. *)
Lemma first_two_fail_third_succeeds_yet_false :
  click Sample.stale_button <> Clicked
  /\ script_click Sample.stale_button <> Clicked
  /\ pointer_click Sample.stale_button = Clicked
  /\ Improved.go_to_next_page Sample.stale_page = (false, [Native]).
Proof. repeat split; discriminate. Qed.

(** C3 (amended): on a next-page control that is found and not disabled,
    [ImprovedCinetPayScraper.go_to_next_page] tries the native click, goes
    on to the scripted click only when the native click is intercepted,
    and from a failed scripted click to the synthetic click; it returns
    [True] at the first click that does not raise, so also when the native
    click is intercepted, the scripted click raises and the synthetic click
    goes through; it returns [False] when all three have raised, and also,
    without trying the other two, when the native click raises anything
    but an interception.  [CinetPayScraper.go_to_next_page] has the first
    two strategies only and goes on from any failure of the native
    click.  The last clauses give the answer and the clicks made for each
    way the clicks can end. *)
Theorem click_escalation :
  (forall (p : Improved.page) (b : button) (c : string),
      Improved.next_button p = Some b ->
      parent_class b = Some c ->
      Py.contains "disabled" c = false ->
      let r := Improved.go_to_next_page p in
      initial_part (snd r) [Native; Scripted; Synthetic]
      /\ snd r <> []
      /\ (forall s, In s (removelast (snd r)) -> outcome_of b s <> Clicked)
      /\ (fst r = true <-> outcome_of b (last (snd r) Native) = Clicked)
      /\ (click b = Intercepted -> script_click b <> Clicked ->
          pointer_click b = Clicked ->
          r = (true, [Native; Scripted; Synthetic]))
      /\ (fst r = false ->
          (click b = Failed /\ snd r = [Native])
          \/ snd r = [Native; Scripted; Synthetic])
      /\ (click b = Clicked -> r = (true, [Native]))
      /\ (click b = Failed -> r = (false, [Native]))
      /\ (click b = Intercepted -> script_click b = Clicked ->
          r = (true, [Native; Scripted]))
      /\ (click b = Intercepted -> script_click b <> Clicked ->
          pointer_click b <> Clicked ->
          r = (false, [Native; Scripted; Synthetic])))
  /\ (forall (p : Basic.page) (b : button) (c : string),
        first_resolved (Basic.next_controls p) = Some b ->
        parent_class b = Some c ->
        Py.contains "disabled" c = false ->
        let r := Basic.go_to_next_page p in
        initial_part (snd r) [Native; Scripted]
        /\ snd r <> []
        /\ (forall s, In s (removelast (snd r)) -> outcome_of b s <> Clicked)
        /\ (fst r = true <-> outcome_of b (last (snd r) Native) = Clicked)
        /\ (fst r = false -> snd r = [Native; Scripted])
        /\ (click b = Clicked -> r = (true, [Native]))
        /\ (click b <> Clicked -> script_click b = Clicked ->
            r = (true, [Native; Scripted]))
        /\ (click b <> Clicked -> script_click b <> Clicked ->
            r = (false, [Native; Scripted]))).
Proof.
  split; intros p b c Hb Hc Hd.
  - unfold Improved.go_to_next_page. rewrite Hb, Hc, Hd.
    unfold Improved.click_next, initial_part.
    destruct (click b) eqn:E1;
      [| destruct (script_click b) eqn:E2;
         [| destruct (pointer_click b) eqn:E3 ..] |];
      simpl; (split; [eexists; reflexivity|]); settle_clicks.
  - unfold Basic.go_to_next_page. rewrite Hb, Hc, Hd.
    unfold initial_part.
    destruct (click b) eqn:E1;
      [| destruct (script_click b) eqn:E2 ..];
      simpl; (split; [eexists; reflexivity|]); settle_clicks.
Qed.

Lemma click_escalation_witness :
  Improved.go_to_next_page Sample.covered_page
  = (true, [Native; Scripted; Synthetic])
  /\ snd (Basic.go_to_next_page Sample.covered_basic_page)
     = [Native; Scripted].
Proof.
  split.
  - destruct (proj1 click_escalation Sample.covered_page
                Sample.covered_button "page-item")
      as (_ & _ & _ & _ & H & _); [reflexivity ..|].
    apply H; [reflexivity | discriminate | reflexivity].
  - destruct (proj2 click_escalation Sample.covered_basic_page
                Sample.covered_button "page-item")
      as (_ & _ & _ & _ & H & _); [reflexivity ..|].
    apply H. reflexivity.
Defined.

(** ** Orchestration over countries *)

Section Countries.

Context {W : Type}.
Variable m : Improved.methods W.
Variable display_name : string -> string.
Variable fuel : nat.
Variable f : Improved.filters.
Variable max_pages : option Z.

(** A page loop never drops what it was entered with. *)
Lemma loop_keeps_transactions (n : nat) :
  forall (page_count : Z) (acc : list string) (w : W)
         (e : Improved.loop_exit W),
    Improved.scrape_loop m n max_pages page_count acc w = Some e ->
    exists more, held e = acc ++ more.
Proof.
  induction n as [|n IH]; intros page_count acc w e; simpl;
    [discriminate|].
  destruct (over_limit max_pages (page_count + 1)).
  { intros [= <-]. exists []. simpl. now rewrite app_nil_r. }
  destruct (Improved.pagination_info m w) as [info w1 | reason w1].
  2: { intros [= <-]. exists []. simpl. now rewrite app_nil_r. }
  destruct (Improved.table_data m w1) as [page w2 | reason w2].
  2: { intros [= <-]. exists []. simpl. now rewrite app_nil_r. }
  destruct (negb (has_next info)).
  { intros [= <-]. exists page. reflexivity. }
  destruct (Improved.next_page m w2) as [[|] w3 | reason w3].
  - intros H. apply IH in H as (more & ->).
    exists (page ++ more). now rewrite app_assoc.
  - intros [= <-]. exists page. reflexivity.
  - intros [= <-]. exists page. reflexivity.
Qed.




End Countries.



(** The run itself never raises and, when a page limit is set, always
    returns: whatever the methods do, the page loop of each country leaves
    within the limit. *)
Section Returns.

Context {W : Type}.
Variable m : Improved.methods W.
Variable display_name : string -> string.
Variable f : Improved.filters.
Variable limit : Z.
Hypothesis limit_set : limit <> 0.

Lemma country_loop_stops (fuel : nat) :
  forall (page_count : Z) (acc : list string) (w : W),
    (1 <= fuel)%nat -> limit - page_count < Z.of_nat fuel ->
    exists e,
      Improved.scrape_loop m fuel (Some limit) page_count acc w = Some e.
Proof.
  induction fuel as [|fuel IH]; intros page_count acc w H1 H2; [lia|].
  simpl. pose proof limit_set as Hm. apply Z.eqb_neq in Hm.
  rewrite Hm. simpl.
  destruct (limit <? page_count + 1) eqn:E; [eauto|].
  apply Z.ltb_ge in E.
  destruct (Improved.pagination_info m w) as [info w1 | r w1]; [|eauto].
  destruct (Improved.table_data m w1) as [page w2 | r w2]; [|eauto].
  destruct (negb (has_next info)); [eauto|].
  destruct (Improved.next_page m w2) as [[|] w3 | r w3]; eauto.
  apply IH; lia.
Qed.

Lemma run_always_returns (countries : list (string * string)) :
  forall (acc errors : list string) (w : W),
    exists result,
      Improved.scrape_countries m display_name (S (Z.to_nat limit))
        countries f (Some limit) acc errors w = Some result.
Proof.
  induction countries as [|[name code] rest IH]; intros acc errors w;
    simpl Improved.scrape_countries; [eauto|].
  destruct (Improved.navigate_to_transactions m w) as [u w1 | e w1];
    [|apply IH].
  unfold Improved.scrape_single_country.
  destruct (Improved.set_filters m _ w1) as [u' w2 | e w2]; [|apply IH].
  destruct (country_loop_stops (S (Z.to_nat limit)) 0 [] w2) as [x E];
    [lia | lia |].
  rewrite E. destruct x; apply IH.
Qed.

End Returns.

(** The page readers of the class catch what they meet: over them, only
    going back to the transactions page and setting the filters can make
    a country fail. *)
Lemma implemented_loop_never_throws (browser : Type)
    (view : browser -> Improved.page) (next : browser -> browser)
    (navigate : browser -> Improved.outcome unit browser)
    (apply_filters :
       Improved.filters -> browser -> Improved.outcome unit browser)
    (max_pages : option Z) (fuel : nat) :
  forall (page_count : Z) (acc : list string) (b : browser)
         (reason : string) (kept : list string) (b' : browser),
    Improved.scrape_loop
      (Improved.implementation browser view next navigate apply_filters)
      fuel max_pages page_count acc b
    <> Some (Improved.Thrown reason kept b').
Proof.
  induction fuel as [|fuel IH]; intros page_count acc b reason kept b';
    simpl; [discriminate|].
  destruct (over_limit max_pages (page_count + 1)); [discriminate|].
  destruct (negb (has_next (Improved.get_pagination_info (view b))));
    [discriminate|].
  destruct (fst (Improved.go_to_next_page (view b)));
    [apply IH | discriminate].
Qed.

(** ** Page ceilings *)

Section Ceilings.

Variable browser : Type.

Lemma main_loop_stops (view : browser -> Improved.page)
    (next : browser -> browser) (fuel : nat) :
  forall (page_count : Z) (acc : list string) (b : browser),
    (1 <= fuel)%nat -> 100 - page_count <= Z.of_nat fuel ->
    exists out,
      ScrapeTransactionIds.scrape_loop browser view next fuel
        page_count acc b = Some out.
Proof.
  induction fuel as [|fuel IH]; intros page_count acc b H1 H2; [lia|].
  simpl.
  destruct (negb (has_next (Improved.get_pagination_info (view b))));
    simpl; [eauto|].
  destruct (100 <=? page_count + 1) eqn:E; [eauto|].
  apply Z.leb_gt in E.
  destruct (fst (Improved.go_to_next_page (view b))); [|eauto].
  apply IH; lia.
Qed.

Lemma basic_loop_stops (json_loads : string -> option Basic.json)
    (view : browser -> Basic.page) (next : browser -> browser)
    (m : Z) (fuel : nat) :
  m <> 0 ->
  forall (page_count : Z) (acc : list Basic.transaction) (b : browser),
    (1 <= fuel)%nat -> m - page_count < Z.of_nat fuel ->
    exists out,
      Basic.scrape_loop json_loads browser view next fuel (Some m)
        page_count acc b = Some out.
Proof.
  intros Hm.
  induction fuel as [|fuel IH]; intros page_count acc b H1 H2; [lia|].
  simpl. apply Z.eqb_neq in Hm. rewrite Hm. simpl.
  destruct (m <? page_count + 1) eqn:E; [eauto|].
  apply Z.ltb_ge in E.
  destruct (negb (has_next (Basic.get_pagination_info (view b))));
    [eauto|].
  destruct (fst (Basic.go_to_next_page (view b))); [|eauto].
  apply IH; lia.
Qed.

End Ceilings.

Lemma endless_loop_never_returns (fuel : nat) :
  forall (page_count : Z) (acc : list Basic.transaction) (b : nat),
    Basic.scrape_loop Sample.no_json nat Sample.endless S fuel None
      page_count acc b = None.
Proof.
  induction fuel as [|fuel IH]; intros page_count acc b; [reflexivity|].
  cbn [Basic.scrape_loop over_limit].
  change (Basic.get_pagination_info (Sample.endless b))
    with (mkinfo 1 2 true).
  change (Basic.go_to_next_page (Sample.endless b)) with (true, [Native]).
  cbn [has_next negb fst]. apply IH.
Qed.

(** C8, as stated, fails: [scrape_all_pages] called without [max_pages]
    on a table whose every page announces a next page and lets the click
    through never leaves its loop, whatever the number of iterations it is
    given. *)
Lemma no_global_ceiling :
  ~ exists fuel out,
      Basic.scrape_all_pages Sample.no_json nat Sample.endless S fuel None
        0%nat = Some out.
Proof.
  intros (fuel & out & H). unfold Basic.scrape_all_pages in H.
  now rewrite endless_loop_never_returns in H.
Qed.

(** C8 (amended): the loop of [scrape_transaction_ids.main] leaves after
    at most 100 pages on every browser; [scrape_all_pages] called with a
    [max_pages] that is not zero leaves after at most [max_pages] pages and
    one more test of the limit, and so does the page loop of every country
    of [scrape_all_countries] called with such a [max_pages_per_country];
    all this whatever the pagination state and the clicks report.  Called
    without a page limit, or with zero, these loops have no ceiling of
    their own. *)
Theorem page_ceilings :
  (forall (browser : Type) (view : browser -> Improved.page)
          (next : browser -> browser) (b : browser),
      exists out,
        ScrapeTransactionIds.main browser view next 100 b = Some out)
  /\ (forall (json_loads : string -> option Basic.json) (browser : Type)
             (view : browser -> Basic.page) (next : browser -> browser)
             (m : Z) (b : browser),
        m <> 0 ->
        exists out,
          Basic.scrape_all_pages json_loads browser view next
            (S (Z.to_nat m)) (Some m) b = Some out)
  /\ (forall (W : Type) (methods : Improved.methods W)
             (display_name : string -> string)
             (countries : list (string * string)) (f : Improved.filters)
             (m : Z) (w : W),
        m <> 0 ->
        exists result,
          Improved.scrape_all_countries methods display_name
            (S (Z.to_nat m)) countries f (Some m) w = Some result).
Proof.
  split; [|split].
  - intros browser view next b. apply main_loop_stops; lia.
  - intros json_loads browser view next m b Hm.
    apply basic_loop_stops; [exact Hm | lia | lia].
  - intros W methods display_name countries f m w Hm.
    now apply run_always_returns.
Qed.

Lemma page_ceilings_witness :
  exists out,
    Basic.scrape_all_pages Sample.no_json nat Sample.endless S 4 (Some 3)
      0%nat = Some out.
Proof.
  apply (proj1 (proj2 page_ceilings) Sample.no_json nat Sample.endless S 3
           0%nat).
  discriminate.
Defined.

Example all_countries_with_one_failure :
  Improved.scrape_all_countries Sample.flaky (fun s => s) 5
    Improved.COUNTRY_CODES Sample.no_filters (Some 10) 7%nat
  = Some (["CM1"; "CM2"; "TG1"; "TG1"; "TG1"; "TG1"], 100%nat,
          ["Error scraping Cameroun: stale element reference"]).
Proof. reflexivity. Qed.

(** ** Checks of the built-ins *)

Example strip_ex : Py.strip "  TX 1 " = "TX 1". Proof. reflexivity. Qed.
Example split_ex : Py.split " 15-01-2025  10:30 " = ["15-01-2025"; "10:30"].
Proof. reflexivity. Qed.
Example int_ex : Py.int " 1_0 " = Some 10 /\ Py.int "-3" = Some (-3)
  /\ Py.int (String (ascii_of_nat 28) "4") = None
  /\ Py.int (String (ascii_of_nat 133) "4") = Some 4
  /\ Py.int "1__0" = None /\ Py.int "" = None /\ Py.int "12a" = None
  /\ Py.int "007" = Some 7 /\ Py.int "..." = None.
Proof. repeat split; reflexivity. Qed.

Example strptime_ex :
  Py.strptime_dmY "15-01-2025" = Some (Py.mkdate 2025 1 15)
  /\ Py.strptime_dmY "5-1-2025" = Some (Py.mkdate 2025 1 5)
  /\ Py.strptime_dmY "29-02-2025" = None
  /\ Py.strptime_dmY "29-02-2024" = Some (Py.mkdate 2024 2 29)
  /\ Py.strptime_dmY "2025-01-15" = None
  /\ Py.strptime_dmY "15-01-20255" = None
  /\ Py.strptime_Ymd "2025-01-35" = None
  /\ Py.strptime_Ymd "2025-01- 5" = Some (Py.mkdate 2025 1 5)
  /\ Py.strptime_Ymd "2025-01-31" = Some (Py.mkdate 2025 1 31).
Proof. repeat split; reflexivity. Qed.

(** * Further properties of the scrapers *)

(** ** Extraction *)

(** X1: [ImprovedCinetPayScraper.extract_table_data] returns, in the order of
    the table, the stripped text of exactly those identifier cells that
    are not empty or whitespace-only. *)
Theorem improved_extraction_strips_and_filters (p : Improved.page) :
  Improved.extract_table_data p
  = map Py.strip
      (filter (fun t => negb (all_space t)) (Improved.id_cells p)).
Proof.
  unfold Improved.extract_table_data.
  induction (Improved.id_cells p) as [|t rest IH]; simpl; [reflexivity|].
  rewrite truthy_strip. destruct (all_space t); simpl; now rewrite IH.
Qed.

Lemma fast_rows_as_improved (rs : list (list string)) :
  Fast.extract_rows rs
  = Improved.extract_ids
      (map (fun cells => nth 1 cells "")
           (filter (fun cells => (2 <=? length cells)%nat) rs)).
Proof.
  induction rs as [|cells rest IH]; [reflexivity|].
  cbn [Fast.extract_rows filter]. unfold Fast.extract_row.
  destruct (2 <=? length cells)%nat; [|exact IH].
  cbn [map Improved.extract_ids].
  destruct (Py.truthy (Py.strip (nth 1 cells ""))) eqn:Ht;
    cbn [andb]; [|exact IH].
  apply truthy_true_iff in Ht. apply String.eqb_neq in Ht.
  rewrite Ht. cbn [negb]. now rewrite IH.
Qed.

(** X2: On one and the same table the fast and the improved scraper extract
    the same identifiers: when the second-column cells that the improved
    scraper queries are those of the rows with at least two cells,
    [extract_transaction_ids_fast] and [extract_table_data] agree. *)
Theorem fast_and_improved_extraction_agree (fp : Fast.page)
    (ip : Improved.page) :
  Improved.id_cells ip
  = map (fun cells => nth 1 cells "")
        (filter (fun cells => (2 <=? length cells)%nat) (Fast.rows fp)) ->
  Fast.extract_transaction_ids_fast fp = Improved.extract_table_data ip.
Proof.
  intros H. unfold Fast.extract_transaction_ids_fast,
    Improved.extract_table_data.
  rewrite H. apply fast_rows_as_improved.
Qed.

Lemma fast_and_improved_extraction_agree_witness :
  Fast.extract_transaction_ids_fast
    (Fast.mkpage [["d"; " TX1 "]; ["Loading"]; ["d"; "  "; "x"]] [] None)
  = Improved.extract_table_data
      (Improved.mkpage [" TX1 "; "  "] (mkpager None [] []) None).
Proof.
  apply fast_and_improved_extraction_agree. reflexivity.
Defined.

Lemma basic_rows_app (json_loads : string -> option Basic.json)
    (rs1 rs2 : list Basic.row) :
  Basic.extract_rows json_loads (rs1 ++ rs2)
  = Basic.extract_rows json_loads rs1 ++ Basic.extract_rows json_loads rs2.
Proof.
  induction rs1 as [|r rest IH]; simpl; [reflexivity|].
  destruct (Basic.extract_row json_loads r); simpl; now rewrite IH.
Qed.

Lemma basic_row_base (json_loads : string -> option Basic.json)
    (r : Basic.row) :
  Basic.enrich json_loads r <> None ->
  option_map base (Basic.extract_row json_loads r)
  = if (5 <=? length (Basic.cells r))%nat
       && Py.truthy (Basic.cell r 1)
    then Some (Basic.cell r 0, Basic.cell r 1, Basic.cell r 2,
               Basic.cell r 3, Basic.cell r 4)
    else None.
Proof.
  intros H. unfold Basic.extract_row.
  destruct (5 <=? length (Basic.cells r))%nat; simpl; [|reflexivity].
  destruct (Py.truthy (Basic.cell r 1)); simpl; [|reflexivity].
  destruct (Basic.enrich json_loads r); [reflexivity | contradiction].
Qed.

(** X3: The payload of a row is best-effort: as long as no payload of the page
    breaks its row, the rows kept and their five columns do not depend on
    what [json.loads] makes of the payloads; whether a payload decodes,
    fails to decode or is absent changes only the keys added. *)
Theorem payload_never_alters_columns
    (loads1 loads2 : string -> option Basic.json) (p : Basic.page) :
  Forall (fun r => Basic.enrich loads1 r <> None) (Basic.rows p) ->
  Forall (fun r => Basic.enrich loads2 r <> None) (Basic.rows p) ->
  map base (Basic.extract_table_data loads1 p)
  = map base (Basic.extract_table_data loads2 p).
Proof.
  unfold Basic.extract_table_data.
  induction (Basic.rows p) as [|r rest IH]; intros H1 H2; simpl;
    [reflexivity|].
  inversion H1 as [|? ? Hr1 Hrest1]; subst.
  inversion H2 as [|? ? Hr2 Hrest2]; subst.
  pose proof (basic_row_base loads1 r Hr1) as E1.
  pose proof (basic_row_base loads2 r Hr2) as E2.
  rewrite <- E2 in E1.
  destruct (Basic.extract_row loads1 r) as [t1|],
           (Basic.extract_row loads2 r) as [t2|]; cbn [option_map] in E1;
    try discriminate.
  - cbn [map]. f_equal; [congruence | now apply IH].
  - now apply IH.
Qed.

Lemma payload_never_alters_columns_witness :
  map base
    (Basic.extract_table_data
       (fun _ => Some (Basic.JObj [("payment_method", Basic.JStr "OM")]))
       (Basic.mkpage
          [Basic.mkrow ["d"; "TX1"; "p"; "a"; "s"]
             (Some (Basic.mkaction (Some "{}") None))]
          (mkpager None [] []) []))
  = [("d", "TX1", "p", "a", "s")].
Proof.
  rewrite (payload_never_alters_columns _ Sample.no_json).
  - reflexivity.
  - repeat constructor. discriminate.
  - repeat constructor. discriminate.
Defined.

(** X4: A payload that decodes to something other than an object costs the
    row: [payment_data.get] raises an error that only the handler of the
    row catches, and the page is extracted as if the row were not
    there. *)
Theorem non_object_payload_drops_row
    (json_loads : string -> option Basic.json)
    (before after : list Basic.row) (r : Basic.row) (a : Basic.action_link)
    (text : string) (v : Basic.json) (bar : pager)
    (controls : list (option button)) :
  Basic.payment_action r = Some a ->
  Basic.data_json a = Some text ->
  text <> "" ->
  json_loads text = Some v ->
  (forall members, v <> Basic.JObj members) ->
  Basic.extract_table_data json_loads
    (Basic.mkpage (before ++ r :: after) bar controls)
  = Basic.extract_table_data json_loads
      (Basic.mkpage (before ++ after) bar controls).
Proof.
  intros Ha Hd Ht Hv Hobj. unfold Basic.extract_table_data. simpl.
  rewrite !basic_rows_app. f_equal. simpl.
  assert (E : Basic.enrich json_loads r = None).
  { unfold Basic.enrich. rewrite Ha, Hd.
    apply truthy_true_iff in Ht. rewrite Ht, Hv.
    destruct v; try reflexivity. now destruct (Hobj members). }
  unfold Basic.extract_row. rewrite E.
  destruct (5 <=? length (Basic.cells r))%nat; [|reflexivity].
  now destruct (Py.truthy (Basic.cell r 1)).
Qed.

Lemma non_object_payload_drops_row_witness :
  Basic.extract_table_data (fun _ => Some (Basic.JArr []))
    (Basic.mkpage
       ([Sample.row_tx1]
        ++ Basic.mkrow ["d"; "TX7"; "p"; "a"; "s"]
             (Some (Basic.mkaction (Some "[]") None))
        :: [Sample.row_tx2])
       (mkpager None [] []) [])
  = Basic.extract_table_data (fun _ => Some (Basic.JArr []))
      (Basic.mkpage ([Sample.row_tx1] ++ [Sample.row_tx2])
         (mkpager None [] []) []).
Proof.
  apply (non_object_payload_drops_row _ _ _ _
           (Basic.mkaction (Some "[]") None) "[]" (Basic.JArr []));
    try reflexivity; discriminate.
Defined.

(** ** Page limits and complete runs *)

Section BasicLimits.

Variable json_loads : string -> option Basic.json.
Variable browser : Type.
Variable view : browser -> Basic.page.
Variable next : browser -> browser.

Lemma basic_loop_bounded (m : Z) (fuel : nat) :
  m <> 0 ->
  forall (page_count : Z) (acc : list Basic.transaction) (b : browser)
         (out : list Basic.transaction),
    Basic.scrape_loop json_loads browser view next fuel (Some m)
      page_count acc b = Some out ->
    exists n, Z.of_nat n <= Z.max 0 (m - page_count)
      /\ out = acc ++ flat_map (Basic.extract_table_data json_loads)
                        (shown view next n b).
Proof.
  intros Hm. apply Z.eqb_neq in Hm.
  induction fuel as [|fuel IH]; intros page_count acc b out; simpl;
    [discriminate|].
  rewrite Hm. simpl.
  destruct (m <? page_count + 1) eqn:E.
  { intros [= <-]. exists 0%nat. simpl. rewrite app_nil_r. split; [lia|auto]. }
  apply Z.ltb_ge in E.
  destruct (negb (has_next (Basic.get_pagination_info (view b)))).
  { intros [= <-]. exists 1%nat. simpl. rewrite app_nil_r.
    split; [lia|auto]. }
  destruct (fst (Basic.go_to_next_page (view b))).
  - intros H. apply IH in H as (n & Hn & ->).
    exists (S n). simpl. rewrite <- app_assoc. split; [lia|auto].
  - intros [= <-]. exists 1%nat. simpl. rewrite app_nil_r.
    split; [lia|auto].
Qed.

Lemma basic_loop_complete (max_pages : option Z) (n : nat) :
  (forall page_count, over_limit max_pages page_count = false) ->
  forall (fuel : nat) (page_count : Z) (acc : list Basic.transaction)
         (b : browser),
    clicks_to_last Basic.get_pagination_info
      (fun p => fst (Basic.go_to_next_page p)) view next n b ->
    (n < fuel)%nat ->
    Basic.scrape_loop json_loads browser view next fuel max_pages
      page_count acc b
    = Some (acc ++ flat_map (Basic.extract_table_data json_loads)
                     (shown view next (S n) b)).
Proof.
  intros Hmax.
  induction n as [|n IH]; intros fuel page_count acc b Hn Hf;
    (destruct fuel as [|fuel]; [lia|]); simpl in Hn |- *; rewrite Hmax.
  - rewrite Hn. simpl. now rewrite app_nil_r.
  - destruct Hn as (H1 & H2 & H3). rewrite H1, H2. simpl.
    rewrite (IH fuel (page_count + 1) _ (next b) H3); [|lia].
    simpl. now rewrite <- app_assoc.
Qed.

End BasicLimits.

(** X5: [CinetPayScraper.scrape_all_pages] called with a [max_pages] that is
    not zero returns the extraction of at most [max_pages] pages, those
    first shown, in order (of no page when [max_pages] is negative). *)
Theorem basic_run_respects_max_pages
    (json_loads : string -> option Basic.json) (browser : Type)
    (view : browser -> Basic.page) (next : browser -> browser)
    (fuel : nat) (m : Z) (b : browser) (out : list Basic.transaction) :
  m <> 0 ->
  Basic.scrape_all_pages json_loads browser view next fuel (Some m) b
  = Some out ->
  exists n, Z.of_nat n <= Z.max 0 m
    /\ out = flat_map (Basic.extract_table_data json_loads)
               (shown view next n b).
Proof.
  intros Hm H. unfold Basic.scrape_all_pages in H.
  apply basic_loop_bounded in H as (n & Hn & ->); [|exact Hm].
  exists n. split; [lia | reflexivity].
Qed.

Lemma basic_run_respects_max_pages_witness :
  exists n, Z.of_nat n <= Z.max 0 3
    /\ Basic.scrape_all_pages Sample.no_json nat Sample.endless S 4 (Some 3)
         0%nat
       = Some (flat_map (Basic.extract_table_data Sample.no_json)
                 (shown Sample.endless S n 0%nat)).
Proof.
  destruct (basic_run_respects_max_pages Sample.no_json nat Sample.endless
              S 4 3 0%nat _ ltac:(discriminate) eq_refl) as (n & Hn & H).
  exists n. split; [exact Hn|]. now rewrite <- H.
Defined.

(** X6: Without page limit, on a table whose pages announce a next page and
    let the click through until a last page that announces none,
    [CinetPayScraper.scrape_all_pages] returns the extraction of every
    page, the last included, in page order. *)
Theorem basic_run_reads_every_page
    (json_loads : string -> option Basic.json) (browser : Type)
    (view : browser -> Basic.page) (next : browser -> browser)
    (fuel n : nat) (max_pages : option Z) (b : browser) :
  max_pages = None \/ max_pages = Some 0 ->
  clicks_to_last Basic.get_pagination_info
    (fun p => fst (Basic.go_to_next_page p)) view next n b ->
  (n < fuel)%nat ->
  Basic.scrape_all_pages json_loads browser view next fuel max_pages b
  = Some (flat_map (Basic.extract_table_data json_loads)
            (shown view next (S n) b)).
Proof.
  intros Hmax Hn Hf. unfold Basic.scrape_all_pages.
  rewrite (basic_loop_complete json_loads browser view next max_pages n);
    auto.
  intros page_count. now destruct Hmax as [-> | ->].
Qed.

Lemma basic_run_reads_every_page_witness :
  Basic.scrape_all_pages Sample.no_json nat Sample.two_pages S 2 None 0%nat
  = Some (flat_map (Basic.extract_table_data Sample.no_json)
            (shown Sample.two_pages S 2 0%nat)).
Proof.
  apply basic_run_reads_every_page; [now left | | lia].
  simpl. repeat split; reflexivity.
Defined.

(** ** Runs of [EnhancedTransactionIDScraper] *)

Section EnhancedRun.

Variable browser : Type.
Variable view : browser -> Enhanced.page.
Variable next : browser -> browser.
Variable date_filter : option (string * string).

Lemma enhanced_loop_appends (max_pages : option Z) (fuel : nat) :
  forall (page_count : Z) (acc : list string) (b : browser)
         (out : list string),
    Enhanced.scrape_loop browser view next fuel max_pages date_filter
      page_count acc b = Some out ->
    exists n,
      out = acc ++ flat_map (Enhanced.extract_transaction_ids date_filter)
                     (shown view next n b)
      /\ forall m, max_pages = Some m -> m <> 0 ->
                   Z.of_nat n <= Z.max 0 (m - page_count).
Proof.
  induction fuel as [|fuel IH]; intros page_count acc b out; simpl;
    [discriminate|].
  destruct (over_limit max_pages (page_count + 1)) eqn:E.
  { intros [= <-]. exists 0%nat. simpl. rewrite app_nil_r.
    split; [reflexivity | intros; lia]. }
  assert (Hroom : forall m, max_pages = Some m -> m <> 0 ->
                            page_count + 1 <= m).
  { intros m -> Hm. simpl in E. apply Z.eqb_neq in Hm. rewrite Hm in E.
    simpl in E. now apply Z.ltb_ge in E. }
  destruct (negb (has_next (Enhanced.get_pagination_info (view b)))).
  { intros [= <-]. exists 1%nat. simpl. rewrite app_nil_r.
    split; [reflexivity|]. intros m Hm Hz. specialize (Hroom m Hm Hz). lia. }
  destruct (fst (Enhanced.go_to_next_page (view b))).
  - intros H. apply IH in H as (n & -> & Hn).
    exists (S n). simpl. rewrite <- app_assoc. split; [reflexivity|].
    intros m Hm Hz. specialize (Hroom m Hm Hz). specialize (Hn m Hm Hz).
    lia.
  - intros [= <-]. exists 1%nat. simpl. rewrite app_nil_r.
    split; [reflexivity|]. intros m Hm Hz. specialize (Hroom m Hm Hz). lia.
Qed.

Lemma enhanced_loop_stops (m : Z) (fuel : nat) :
  m <> 0 ->
  forall (page_count : Z) (acc : list string) (b : browser),
    (1 <= fuel)%nat -> m - page_count < Z.of_nat fuel ->
    exists out,
      Enhanced.scrape_loop browser view next fuel (Some m) date_filter
        page_count acc b = Some out.
Proof.
  intros Hm.
  induction fuel as [|fuel IH]; intros page_count acc b H1 H2; [lia|].
  simpl. apply Z.eqb_neq in Hm. rewrite Hm. simpl.
  destruct (m <? page_count + 1) eqn:E; [eauto|].
  apply Z.ltb_ge in E.
  destruct (negb (has_next (Enhanced.get_pagination_info (view b))));
    [eauto|].
  destruct (fst (Enhanced.go_to_next_page (view b))); [|eauto].
  apply IH; lia.
Qed.

End EnhancedRun.

Lemma in_flat_map_shown {browser page A : Type} (view : browser -> page)
    (next : browser -> browser) (f : page -> list A) (n : nat) (b : browser)
    (a : A) :
  In a (flat_map f (shown view next n b)) ->
  exists p, In p (shown view next n b) /\ In a (f p).
Proof. intros H. now apply in_flat_map in H. Qed.

Lemma enhanced_row_in_range (start_date end_date : string)
    (cells : list string) (i : string) :
  Enhanced.extract_row (Some (start_date, end_date)) cells = Some i ->
  Enhanced.is_date_in_range (Py.strip (nth 0 cells "")) start_date end_date
  = true.
Proof.
  unfold Enhanced.extract_row.
  destruct (2 <? length cells)%nat; [|discriminate].
  destruct (_ && _ && _); [|discriminate].
  now destruct (Enhanced.is_date_in_range _ _ _).
Qed.

(** X7: Every identifier that a finished run of
    [EnhancedTransactionIDScraper.scrape_all_pages] returns is the stripped
    third cell of a row of one of the pages shown, is not empty and does
    not start with [Loading]; when a date filter is given, the date of
    that row is in the range of the filter. *)
Theorem enhanced_run_returns_only_valid_rows (browser : Type)
    (view : browser -> Enhanced.page) (next : browser -> browser)
    (fuel : nat) (max_pages : option Z)
    (date_filter : option (string * string)) (b : browser)
    (out : list string) (i : string) :
  Enhanced.scrape_all_pages browser view next fuel max_pages date_filter b
  = Some out ->
  In i out ->
  i <> "" /\ Py.startswith "Loading" i = false
  /\ exists n p cells,
       In p (shown view next n b) /\ In cells (Enhanced.rows p)
       /\ i = Py.strip (nth 2 cells "")
       /\ forall start_date end_date,
            date_filter = Some (start_date, end_date) ->
            Enhanced.is_date_in_range (Py.strip (nth 0 cells ""))
              start_date end_date = true.
Proof.
  unfold Enhanced.scrape_all_pages. intros H Hi.
  apply enhanced_loop_appends in H as (n & -> & _). simpl in Hi.
  apply in_flat_map_shown in Hi as (p & Hp & Hi).
  unfold Enhanced.extract_transaction_ids in Hi.
  destruct (Enhanced.has_table p); [|contradiction].
  apply enhanced_rows_in in Hi as (cells & Hc & E).
  destruct (enhanced_row_some _ _ _ E) as (Ei & Hne & Hl).
  split; [exact Hne|]. split; [exact Hl|].
  exists n, p, cells. repeat split; auto.
  intros start_date end_date ->. now apply enhanced_row_in_range in E.
Qed.

Lemma enhanced_run_returns_only_valid_rows_witness :
  "TXD" <> "" /\ Py.startswith "Loading" "TXD" = false
  /\ exists n p cells,
       In p (shown (fun _ : nat => Sample.payout_page) S n 0%nat)
       /\ In cells (Enhanced.rows p)
       /\ "TXD" = Py.strip (nth 2 cells "")
       /\ forall start_date end_date,
            Sample.january = Some (start_date, end_date) ->
            Enhanced.is_date_in_range (Py.strip (nth 0 cells ""))
              start_date end_date = true.
Proof.
  apply (enhanced_run_returns_only_valid_rows nat
           (fun _ => Sample.payout_page) S 3 (Some 2) Sample.january 0%nat
           ["TXA"; "TXC"; "TXD"; "TXA"; "TXC"; "TXD"]).
  - reflexivity.
  - simpl. tauto.
Defined.

(** X8: [EnhancedTransactionIDScraper.scrape_all_pages] called with a
    [max_pages] that is not zero leaves its loop within [max_pages]
    iterations and one more test of the limit, whatever the pages report,
    and returns the extraction of at most [max_pages] pages, those first
    shown, in order. *)
Theorem enhanced_run_respects_max_pages (browser : Type)
    (view : browser -> Enhanced.page) (next : browser -> browser)
    (date_filter : option (string * string)) (m : Z) (b : browser) :
  m <> 0 ->
  exists out n,
    Enhanced.scrape_all_pages browser view next (S (Z.to_nat m)) (Some m)
      date_filter b = Some out
    /\ Z.of_nat n <= Z.max 0 m
    /\ out = flat_map (Enhanced.extract_transaction_ids date_filter)
               (shown view next n b).
Proof.
  intros Hm. unfold Enhanced.scrape_all_pages.
  destruct (enhanced_loop_stops browser view next date_filter m
              (S (Z.to_nat m)) Hm 0 [] b) as [out H]; [lia | lia |].
  exists out.
  destruct (enhanced_loop_appends _ _ _ _ _ _ _ _ _ _ H) as (n & -> & Hn).
  exists n. split; [exact H|]. split; [|reflexivity].
  specialize (Hn m eq_refl Hm). lia.
Qed.

Lemma enhanced_run_respects_max_pages_witness :
  exists out n,
    Enhanced.scrape_all_pages nat (fun _ => Sample.payout_page) S 3 (Some 2)
      None 0%nat = Some out
    /\ Z.of_nat n <= Z.max 0 2
    /\ out = flat_map (Enhanced.extract_transaction_ids None)
               (shown (fun _ : nat => Sample.payout_page) S n 0%nat).
Proof.
  apply (enhanced_run_respects_max_pages nat (fun _ => Sample.payout_page)
           S None 2 0%nat).
  discriminate.
Defined.

(** ** More on the date filter *)

Lemma date_le_trans (a b c : Py.datetime) :
  date_le a b -> date_le b c -> date_le a c.
Proof. unfold date_le. lia. Qed.

Lemma enhanced_rows_filtered (start_date end_date : string)
    (rs : list (list string)) :
  Enhanced.extract_rows (Some (start_date, end_date)) rs
  = Enhanced.extract_rows None
      (filter (fun cells =>
                 Enhanced.is_date_in_range (Py.strip (nth 0 cells ""))
                   start_date end_date) rs).
Proof.
  induction rs as [|cells rest IH]; [reflexivity|].
  cbn [Enhanced.extract_rows filter].
  destruct (Enhanced.is_date_in_range (Py.strip (nth 0 cells ""))
              start_date end_date) eqn:E.
  - cbn [Enhanced.extract_rows]. rewrite <- IH.
    unfold Enhanced.extract_row. rewrite E. reflexivity.
  - rewrite <- IH. unfold Enhanced.extract_row. rewrite E.
    destruct (2 <? length cells)%nat; [|reflexivity].
    now destruct (_ && _ && _).
Qed.

(** X9: The date filter only removes rows: extracting a page with a date
    filter gives what extracting without filter gives on the same page
    once the rows whose date is out of range are taken away; order and
    identifiers are otherwise the same. *)
Theorem date_filter_only_removes_rows (start_date end_date : string)
    (p : Enhanced.page) :
  Enhanced.extract_transaction_ids (Some (start_date, end_date)) p
  = Enhanced.extract_transaction_ids None
      (Enhanced.mkpage (Enhanced.has_table p)
         (filter (fun cells =>
                    Enhanced.is_date_in_range (Py.strip (nth 0 cells ""))
                      start_date end_date) (Enhanced.rows p))
         (Enhanced.pagination_bars p) (Enhanced.active_texts p)
         (Enhanced.link_texts p) (Enhanced.next_classes p)
         (Enhanced.next_controls p)).
Proof.
  unfold Enhanced.extract_transaction_ids. simpl.
  destruct (Enhanced.has_table p); [|reflexivity].
  apply enhanced_rows_filtered.
Qed.

(** X10: A filter whose start is a later day than its end keeps no row at all:
    [extract_transaction_ids] returns the empty list on every page. *)
Theorem inverted_range_keeps_nothing (start_date end_date : string)
    (s e : Py.datetime) (p : Enhanced.page) :
  Py.strptime_Ymd start_date = Some s ->
  Py.strptime_Ymd end_date = Some e ->
  ~ date_le s e ->
  Enhanced.extract_transaction_ids (Some (start_date, end_date)) p = [].
Proof.
  intros Hs He Hinv. unfold Enhanced.extract_transaction_ids.
  destruct (Enhanced.has_table p); [|reflexivity].
  rewrite enhanced_rows_filtered.
  replace (filter _ (Enhanced.rows p)) with (@nil (list string));
    [reflexivity|].
  induction (Enhanced.rows p) as [|cells rest IH]; [reflexivity|].
  cbn [filter].
  destruct (Enhanced.is_date_in_range (Py.strip (nth 0 cells ""))
              start_date end_date) eqn:E; [|exact IH].
  apply is_date_in_range_iff in E
    as (first & tl & d & s' & e' & _ & _ & Hs' & He' & H1 & H2).
  rewrite Hs in Hs'. rewrite He in He'.
  injection Hs' as <-. injection He' as <-.
  destruct Hinv. exact (date_le_trans _ _ _ H1 H2).
Qed.

Lemma inverted_range_keeps_nothing_witness :
  Enhanced.extract_transaction_ids (Some ("2025-01-31", "2025-01-01"))
    Sample.payout_page = [].
Proof.
  apply (inverted_range_keeps_nothing _ _ (Py.mkdate 2025 1 31)
           (Py.mkdate 2025 1 1)); [reflexivity | reflexivity |].
  unfold date_le. simpl. lia.
Defined.

Lemma split_first_word (d : string) :
  no_space d = true -> d <> "" ->
  forall tail : string,
    (tail = "" \/ exists c r, tail = String c r /\ Py.is_space c = true) ->
    exists words, Py.split (d ++ tail)%string = d :: words.
Proof.
  induction d as [|c d' IH]; intros Hd Hne tail Htail; [congruence|].
  simpl in Hd. apply andb_true_iff in Hd as [Hc Hd'].
  apply negb_true_iff in Hc.
  cbn [String.append Py.split]. rewrite Hc.
  destruct d' as [|c' d''].
  - cbn [String.append].
    destruct Htail as [-> | (sp & r & -> & Hsp)]; [eauto|].
    rewrite Hsp. eauto.
  - destruct (IH Hd' ltac:(discriminate) tail Htail) as [words E].
    cbn [String.append] in E |- *.
    simpl in Hd'. apply andb_true_iff in Hd' as [Hc' _].
    apply negb_true_iff in Hc'. rewrite Hc'.
    rewrite E. eauto.
Qed.

(** X11: The range check looks at the first word of the date cell only: what
    follows the day after a whitespace, such as the time of day, does not
    change its answer. *)
Theorem time_of_day_is_ignored (d time start_date end_date : string)
    (sp : ascii) :
  no_space d = true -> d <> "" -> Py.is_space sp = true ->
  Enhanced.is_date_in_range (d ++ String sp time)%string start_date end_date
  = Enhanced.is_date_in_range d start_date end_date.
Proof.
  intros Hd Hne Hsp. unfold Enhanced.is_date_in_range.
  destruct (split_first_word d Hd Hne (String sp time)) as [w1 E1];
    [right; eauto|].
  destruct (split_first_word d Hd Hne "") as [w2 E2]; [now left|].
  rewrite E1.
  replace (d ++ "")%string with d in E2.
  - now rewrite E2.
  - clear. induction d as [|c r IH]; simpl; [reflexivity | now rewrite <- IH].
Qed.

Lemma time_of_day_is_ignored_witness :
  Enhanced.is_date_in_range "31-01-2025 23:59:59" "2025-01-01" "2025-01-31"
  = Enhanced.is_date_in_range "31-01-2025" "2025-01-01" "2025-01-31".
Proof.
  apply (time_of_day_is_ignored "31-01-2025" "23:59:59" _ _ " "%char);
    [reflexivity | discriminate | reflexivity].
Defined.

(** ** More on pagination *)

Lemma max_page_attained (links : list string) :
  forall total,
    max_page total links = total
    \/ exists l, In l links /\ Py.int l = Some (max_page total links).
Proof.
  induction links as [|t rest IH]; intros total; simpl; [now left|].
  destruct (Py.int t) as [n|] eqn:E.
  - destruct (IH (Z.max total n)) as [H | (l & Hl & El)].
    + rewrite H. destruct (Z.max_spec total n) as [[_ ->] | [_ ->]].
      * right. exists t. split; [now left | exact E].
      * now left.
    + right. exists l. split; [now right | exact El].
  - destruct (IH total) as [H | (l & Hl & El)]; [now left|].
    right. exists l. split; [now right | exact El].
Qed.

(** X12: When [ImprovedCinetPayScraper.get_pagination_info] can read the
    pagination bar, [current_page] is the number of the active link and
    [total_pages] is the greatest number shown by a page link, or 1 when
    no link shows a greater number; links that show no number, such as the
    arrows, are passed over. *)
Theorem total_pages_is_greatest_link (p : Improved.page) (t : string)
    (c : Z) (next : bool) :
  active_text (Improved.pagination p) = Some t ->
  Py.int t = Some c ->
  next_available (last_item_classes (Improved.pagination p)) = Some next ->
  let r := Improved.get_pagination_info p in
  current_page r = c /\ has_next r = next
  /\ (forall l n,
        In l (link_texts (Improved.pagination p)) -> Py.int l = Some n ->
        n <= total_pages r)
  /\ (total_pages r = 1
      \/ exists l, In l (link_texts (Improved.pagination p))
                   /\ Py.int l = Some (total_pages r)).
Proof.
  intros Ht Hc Hn. unfold Improved.get_pagination_info.
  rewrite Ht, Hc, Hn. simpl. repeat split.
  - intros l n Hl El. now apply (max_page_in _ l).
  - apply max_page_attained.
Qed.

Lemma total_pages_is_greatest_link_witness :
  total_pages (Improved.get_pagination_info Sample.last_page) = 1
  \/ exists l,
       In l (link_texts (Improved.pagination Sample.last_page))
       /\ Py.int l
          = Some (total_pages (Improved.get_pagination_info Sample.last_page)).
Proof.
  apply (total_pages_is_greatest_link Sample.last_page "3" 3 false);
    reflexivity.
Defined.

(** X13: The fast scraper and the improved scraper agree on whether there is a
    next page whenever the improved one can read the number of the active
    page; when it cannot, the improved one answers that there is none
    while the fast one still looks at the last item of the bar. *)
Theorem fast_and_improved_agree_on_next (fp : Fast.page)
    (ip : Improved.page) :
  Fast.last_item_classes fp = last_item_classes (Improved.pagination ip) ->
  (has_next (Improved.get_pagination_info ip) = true ->
   Fast.has_next_page fp = true)
  /\ (forall t n,
        active_text (Improved.pagination ip) = Some t ->
        Py.int t = Some n ->
        has_next (Improved.get_pagination_info ip) = Fast.has_next_page fp).
Proof.
  intros H. unfold Improved.get_pagination_info, Fast.has_next_page.
  rewrite H. split.
  - destruct (active_text (Improved.pagination ip)) as [t|];
      [|discriminate].
    destruct (Py.int t); [|discriminate].
    destruct (last_item_classes (Improved.pagination ip)) as [|[c|] rest];
      simpl; auto.
  - intros t n -> ->.
    destruct (last_item_classes (Improved.pagination ip)) as [|[c|] rest];
      reflexivity.
Qed.

Lemma fast_and_improved_agree_on_next_witness :
  has_next (Improved.get_pagination_info Sample.stale_page)
  = Fast.has_next_page (Fast.mkpage [] [Some "page-item"] None).
Proof.
  apply (proj2 (fast_and_improved_agree_on_next
                  (Fast.mkpage [] [Some "page-item"] None)
                  Sample.stale_page eq_refl) "1" 1); reflexivity.
Defined.

Lemma first_resolved_is_first {A : Type} (found : list (option A)) (a : A) :
  first_resolved found = Some a ->
  exists k, nth_error found k = Some (Some a)
    /\ forall j, (j < k)%nat -> nth_error found j = Some None.
Proof.
  induction found as [|[x|] rest IH]; simpl; [discriminate| |].
  - intros [= ->]. exists 0%nat. split; [reflexivity | lia].
  - intros H. destruct (IH H) as (k & Hk & Hj). exists (S k).
    split; [exact Hk|]. intros [|j] Hlt; [reflexivity|].
    apply Hj. lia.
Qed.

(** X14: [go_to_next_page] of [CinetPayScraper] and of
    [EnhancedTransactionIDScraper] answers [True] only after a click that
    went through: the control is the one given by the first selector of
    the list that resolves, the element that holds it is not disabled, and
    the native or the scripted click on it returned; neither method ever
    makes a synthetic click. *)
Theorem next_page_success_means_a_click :
  (forall p : Basic.page,
      ~ In Synthetic (snd (Basic.go_to_next_page p))
      /\ (fst (Basic.go_to_next_page p) = true ->
          exists k b c,
            nth_error (Basic.next_controls p) k = Some (Some b)
            /\ (forall j, (j < k)%nat ->
                          nth_error (Basic.next_controls p) j = Some None)
            /\ parent_class b = Some c
            /\ Py.contains "disabled" c = false
            /\ (click b = Clicked \/ script_click b = Clicked)))
  /\ (forall p : Enhanced.page,
        ~ In Synthetic (snd (Enhanced.go_to_next_page p))
        /\ (fst (Enhanced.go_to_next_page p) = true ->
            exists k b c,
              nth_error (Enhanced.next_controls p) k = Some (Some b)
              /\ (forall j, (j < k)%nat ->
                            nth_error (Enhanced.next_controls p) j
                            = Some None)
              /\ parent_class b = Some c
              /\ Py.contains "disabled" c = false
              /\ (click b = Clicked \/ script_click b = Clicked))).
Proof.
  split; intros p.
  - unfold Basic.go_to_next_page.
    destruct (first_resolved (Basic.next_controls p)) as [b|] eqn:E;
      [|simpl; split; [tauto | discriminate]].
    destruct (first_resolved_is_first _ _ E) as (k & Hk & Hj).
    destruct (parent_class b) as [c|] eqn:Ec;
      [|simpl; split; [tauto | discriminate]].
    destruct (Py.contains "disabled" c) eqn:Ed;
      [simpl; split; [tauto | discriminate]|].
    destruct (click b) eqn:E1; [|destruct (script_click b) eqn:E2..];
      simpl; (split; [intros H; repeat destruct H as [H | H];
                      discriminate || contradiction|]);
      intros H; try discriminate; exists k, b, c; auto 10.
  - unfold Enhanced.go_to_next_page.
    destruct (first_resolved (Enhanced.next_controls p)) as [b|] eqn:E;
      [|simpl; split; [tauto | discriminate]].
    destruct (first_resolved_is_first _ _ E) as (k & Hk & Hj).
    destruct (parent_class b) as [c|] eqn:Ec;
      [|simpl; split; [tauto | discriminate]].
    destruct (Py.contains "disabled" c) eqn:Ed;
      [simpl; split; [tauto | discriminate]|].
    destruct (click b) eqn:E1; [|destruct (script_click b) eqn:E2..];
      simpl; (split; [intros H; repeat destruct H as [H | H];
                      discriminate || contradiction|]);
      intros H; try discriminate; exists k, b, c; auto 10.
Qed.

Lemma next_page_success_means_a_click_witness :
  exists k b c,
    nth_error [None; Some Sample.plain_button] k = Some (Some b)
    /\ (forall j, (j < k)%nat ->
          nth_error [None; Some Sample.plain_button] j = Some None)
    /\ parent_class b = Some c
    /\ Py.contains "disabled" c = false
    /\ (click b = Clicked \/ script_click b = Clicked).
Proof.
  apply (proj2 (proj1 next_page_success_means_a_click
                  (Basic.mkpage [] (mkpager None [] [])
                     [None; Some Sample.plain_button]))).
  reflexivity.
Defined.

(** ** The loop of [scrape_transaction_ids.main] *)

Section MainLoop.

Variable browser : Type.
Variable view : browser -> Improved.page.
Variable next : browser -> browser.

Lemma main_loop_bounded (fuel : nat) :
  forall (page_count : Z) (acc : list string) (b : browser)
         (out : list string),
    ScrapeTransactionIds.scrape_loop browser view next fuel page_count
      acc b = Some out ->
    exists n, (1 <= n)%nat /\ Z.of_nat n <= Z.max 1 (100 - page_count)
      /\ out = acc ++ flat_map Improved.extract_table_data
                        (shown view next n b).
Proof.
  induction fuel as [|fuel IH]; intros page_count acc b out;
    cbn [ScrapeTransactionIds.scrape_loop]; [discriminate|].
  destruct (negb (has_next (Improved.get_pagination_info (view b))));
    cbn [orb].
  { intros [= <-]. exists 1%nat. cbn [shown flat_map]. rewrite app_nil_r.
    split; [lia|]. split; [lia|]. reflexivity. }
  destruct (100 <=? page_count + 1) eqn:E.
  { intros [= <-]. exists 1%nat. cbn [shown flat_map]. rewrite app_nil_r.
    split; [lia|]. split; [lia|]. reflexivity. }
  apply Z.leb_gt in E.
  destruct (fst (Improved.go_to_next_page (view b))).
  - intros H. apply IH in H as (n & H1 & Hn & ->).
    exists (S n). cbn [shown flat_map]. rewrite <- app_assoc. split; [lia|]. split; [lia|]. reflexivity.
  - intros [= <-]. exists 1%nat. cbn [shown flat_map]. rewrite app_nil_r.
    split; [lia|]. split; [lia|]. reflexivity.
Qed.

Lemma main_loop_on_endless_table (fuel : nat) :
  (forall b, has_next (Improved.get_pagination_info (view b)) = true
             /\ fst (Improved.go_to_next_page (view b)) = true) ->
  forall (page_count : Z) (acc : list string) (b : browser),
    (1 <= fuel)%nat -> Z.of_nat fuel = 100 - page_count ->
    ScrapeTransactionIds.scrape_loop browser view next fuel page_count
      acc b
    = Some (acc ++ flat_map Improved.extract_table_data
                     (shown view next fuel b)).
Proof.
  intros Hall.
  induction fuel as [|fuel IH]; intros page_count acc b H1 H2; [lia|].
  simpl. destruct (Hall b) as [-> ->]. simpl.
  destruct (100 <=? page_count + 1) eqn:E.
  - apply Z.leb_le in E. assert (fuel = 0%nat) as -> by lia.
    simpl. now rewrite app_nil_r.
  - apply Z.leb_gt in E. rewrite IH; [|lia|lia].
    now rewrite <- app_assoc.
Qed.

End MainLoop.

(** X15: The loop of [scrape_transaction_ids.main] returns the identifiers of
    at least one and at most 100 pages, those first shown, in order; on a
    table whose every page announces a next page and lets the click
    through it returns those of exactly 100 pages. *)
Theorem main_reads_at_most_100_pages (browser : Type)
    (view : browser -> Improved.page) (next : browser -> browser)
    (b : browser) :
  (forall fuel out,
      ScrapeTransactionIds.main browser view next fuel b = Some out ->
      exists n, (1 <= n <= 100)%nat
        /\ out = flat_map Improved.extract_table_data
                   (shown view next n b))
  /\ ((forall b', has_next (Improved.get_pagination_info (view b')) = true
                  /\ fst (Improved.go_to_next_page (view b')) = true) ->
      ScrapeTransactionIds.main browser view next 100 b
      = Some (flat_map Improved.extract_table_data
                (shown view next 100 b))).
Proof.
  unfold ScrapeTransactionIds.main. split.
  - intros fuel out H.
    apply main_loop_bounded in H as (n & H1 & Hn & ->).
    exists n. split; [lia | reflexivity].
  - intros Hall.
    rewrite (main_loop_on_endless_table browser view next 100 Hall);
      [reflexivity | lia | reflexivity].
Qed.

Lemma main_reads_at_most_100_pages_witness :
  exists n, (1 <= n <= 100)%nat
    /\ ["TX1"] = flat_map Improved.extract_table_data
                  (shown (fun _ : nat => Sample.stale_page) S n 0%nat).
Proof.
  apply (proj1 (main_reads_at_most_100_pages nat
                  (fun _ => Sample.stale_page) S 0%nat) 100%nat).
  reflexivity.
Defined.

(** ** Runs of [ImprovedCinetPayScraper] over its own page readers *)

Section ImplementedRun.

Variable browser : Type.
Variable view : browser -> Improved.page.
Variable next : browser -> browser.
Variable navigate : browser -> Improved.outcome unit browser.
Variable apply_filters :
  Improved.filters -> browser -> Improved.outcome unit browser.


End ImplementedRun.



(** ** [FastCinetPayScraper.scrape_country_fast] *)

Section FastRun.

Variable browser : Type.
Variable view : browser -> Fast.page.
Variable next : browser -> browser.


End FastRun.



(** ** [CinetPayScraper.save_to_csv] *)

Lemma nothing_filtered_when_all_pass {A : Type} (keep : A -> bool)
    (items : list A) (pass : forall x, In x items -> keep x = true) :
  filter keep items = items.
Proof.
  induction items as [|x items IH]; [reflexivity|].
  cbn [filter]. rewrite (pass x (or_introl eq_refl)).
  f_equal. apply IH. intros y Hy. apply pass. now right.
Qed.

Lemma filter_same_length {A : Type} (f : A -> bool) (l : list A) :
  length (filter f l) = length l -> filter f l = l.
Proof.
  induction l as [|a l IH]; simpl; [reflexivity|].
  destruct (f a); simpl; intros H.
  - f_equal. apply IH. lia.
  - pose proof (filter_length_le f l). lia.
Qed.

(** X19: [save_to_csv] hands to the writer exactly the transactions whose
    identifier is not the empty string, in their order, and returns
    [None] without writing when there is none: a row with an empty
    identifier never reaches the file. *)
Theorem csv_rows_have_identifiers (transactions : list Basic.transaction) :
  match Basic.save_to_csv transactions with
  | Some written =>
      written = Basic.valid_transactions transactions
      /\ written <> []
      /\ forall t, In t written -> Basic.transaction_id t <> ""
  | None => Basic.valid_transactions transactions = []
  end.
Proof.
  unfold Basic.save_to_csv.
  destruct transactions as [|t0 rest]; [reflexivity|].
  set (ts := t0 :: rest).
  destruct (Basic.valid_transactions ts) as [|v vs] eqn:E; [reflexivity|].
  assert (Hin : forall t, In t (v :: vs) -> Basic.transaction_id t <> "").
  { intros t Ht. rewrite <- E in Ht. unfold Basic.valid_transactions in Ht.
    apply filter_In in Ht as [_ Ht]. apply negb_true_iff in Ht.
    now apply String.eqb_neq in Ht. }
  destruct (length (v :: vs) <? length ts)%nat eqn:L.
  - repeat split; [discriminate | exact Hin].
  - apply Nat.ltb_ge in L. rewrite <- E in L.
    pose proof (filter_length_le
                  (fun t => negb (String.eqb (Basic.transaction_id t) ""))
                  ts) as Hle.
    unfold Basic.valid_transactions in L, E.
    assert (Heq : filter
                    (fun t => negb (String.eqb (Basic.transaction_id t) ""))
                    ts = ts) by (apply filter_same_length; lia).
    rewrite Heq in E. rewrite E.
    repeat split; [discriminate | exact Hin].
Qed.

(** X20: Nothing that a run of [scrape_all_pages] returns is held back by
    [save_to_csv]: the rows written are the transactions returned, all of
    them and in the same order. *)
Theorem csv_keeps_every_scraped_transaction
    (json_loads : string -> option Basic.json) (browser : Type)
    (view : browser -> Basic.page) (next : browser -> browser)
    (fuel : nat) (max_pages : option Z) (b : browser)
    (out : list Basic.transaction) :
  Basic.scrape_all_pages json_loads browser view next fuel max_pages b
  = Some out ->
  Basic.save_to_csv out
  = match out with [] => None | _ :: _ => Some out end.
Proof.
  unfold Basic.scrape_all_pages. intros H.
  apply basic_loop_appends in H as (n & _ & ->). cbn [app].
  set (out := flat_map _ _).
  assert (Hv : Basic.valid_transactions out = out).
  { apply nothing_filtered_when_all_pass. intros t Ht. apply in_flat_map_shown in Ht
      as (p & _ & Ht).
    apply basic_rows_in in Ht as (r & _ & E).
    apply basic_row_some in E as (_ & Hne & _).
    apply negb_true_iff. now apply String.eqb_neq. }
  unfold Basic.save_to_csv. rewrite Hv.
  destruct out as [|t rest]; [reflexivity|].
  now rewrite Nat.ltb_irrefl.
Qed.

Lemma csv_keeps_every_scraped_transaction_witness :
  exists out,
    Basic.scrape_all_pages Sample.no_json nat Sample.two_pages S 5 None
      0%nat = Some out
    /\ Basic.save_to_csv out = Some out.
Proof.
  eexists. split; [reflexivity|].
  apply (csv_keeps_every_scraped_transaction Sample.no_json nat
           Sample.two_pages S 5 None 0%nat).
  reflexivity.
Defined.

(** [int] does not skip the separators U+001C to U+001F: a page number
    written after one is not read, and a link whose number stands between
    two of them is passed over. *)
Example separator_before_page_number :
  Improved.get_pagination_info
    (Improved.mkpage []
       (mkpager (Some (String (ascii_of_nat 28) "4")) ["4"]
          [Some "page-item"]) None)
  = mkinfo 1 1 false
  /\ Improved.get_pagination_info
       (Improved.mkpage []
          (mkpager (Some "3")
             [String (ascii_of_nat 29) (String "3" (String (ascii_of_nat 30) ""))]
             [Some "page-item"]) None)
     = mkinfo 3 1 true.
Proof. split; reflexivity. Qed.
